(** * Realtime interpreter pipeline: playback buffer, capture queue, realtime client

    A shallow embedding of [src/app.py] (the global playback buffer and the
    two PyAudio output callbacks) and of [src/utils.py] (the classes
    [SimpleRealtime] and [StreamingAudioRecorder]), followed by the
    properties that the design document states about them.

    Conventions.
    - A numpy [int16] array is a [list Z] of sample values; a Python
      [bytes] object is a [list byte].
    - A Python value that can travel in an event (None, bool, int, str,
      list, dict) is a [py_value]; a dict keeps its insertion order and is
      an association list with unique keys.  Floats are left out.
    - A method is a function from the state it may mutate to a [result]
      and the state it leaves behind; an exception that is raised is a
      value of [exn], and the state at the point of the raise is kept.
    - Each [with buffer_lock] block, and each call made on the event loop,
      is one atomic transition. *)

From Stdlib Require Import String Ascii Bool ZArith Lia.
From Stdlib Require Import Strings.Byte DecimalString.
From Stdlib Require Import List.
Import ListNotations.
Local Open Scope string_scope.
Local Open Scope list_scope.
Local Open Scope Z_scope.

(* ================================================================== *)
(** * Exceptions and the state-and-error monad *)

(** The exceptions that the modelled code raises itself carry their
    message; those raised by the interpreter or by a library are named by
    their class only. *)
Inductive exn : Type :=
| Exception (msg : string)
| ValueError (msg : string)
| TypeError
| AttributeError
| JSONDecodeError
| BinasciiError
| TimeoutError
| ConnectionClosed
| OSError.

Inductive result (A : Type) : Type :=
| Ok (a : A)
| Raise (e : exn).
Arguments Ok {A} a.
Arguments Raise {A} e.

(** A computation over a mutable state of type [S]. *)
Definition M (S A : Type) : Type := S -> result A * S.

Definition ret {S A} (a : A) : M S A := fun s => (Ok a, s).
Definition raise {S A} (e : exn) : M S A := fun s => (Raise e, s).
Definition bind {S A B} (m : M S A) (k : A -> M S B) : M S B :=
  fun s => match m s with
           | (Ok a, s') => k a s'
           | (Raise e, s') => (Raise e, s')
           end.
Definition get {S} : M S S := fun s => (Ok s, s).
Definition modify {S} (f : S -> S) : M S unit := fun s => (Ok tt, f s).

Declare Scope py_scope.
Delimit Scope py_scope with py.
Notation "x <- m ;; k" := (bind m (fun x => k))
  (at level 61, m at next level, right associativity) : py_scope.
Notation "m ;;; k" := (bind m (fun _ => k))
  (at level 61, right associativity) : py_scope.

(* ================================================================== *)
(** * numpy: int16 arrays and their bytes *)

Definition int16 : Type := Z.

Definition byte_of_Z (z : Z) : byte :=
  match Byte.of_N (Z.to_N (z mod 256)) with
  | Some b => b
  | None => x00
  end.

Definition Z_of_byte (b : byte) : Z := Z.of_N (Byte.to_N b).

(** [ndarray.tobytes()] for dtype int16: two bytes per sample, low byte
    first, two's complement. *)
Definition sample_bytes (x : int16) : list byte :=
  let u := x mod 65536 in
  [byte_of_Z (Z.land u 255); byte_of_Z (Z.shiftr u 8)].

Definition tobytes (a : list int16) : list byte :=
  flat_map sample_bytes a.

(** [np.zeros(n, dtype=np.int16)]. *)
Definition zeros (n : nat) : list int16 := repeat 0 n.

Definition sample_of_bytes (lo hi : byte) : int16 :=
  let u := Z_of_byte lo + 256 * Z_of_byte hi in
  if 32768 <=? u then u - 65536 else u.

Fixpoint pairs_to_samples (bs : list byte) : option (list int16) :=
  match bs with
  | [] => Some []
  | [_] => None
  | lo :: hi :: rest =>
      match pairs_to_samples rest with
      | Some xs => Some (sample_of_bytes lo hi :: xs)
      | None => None
      end
  end.

(** [np.frombuffer(data, dtype=np.int16)]: a buffer whose size is not a
    multiple of the element size is refused with a ValueError. *)
Definition frombuffer (bs : list byte) : result (list int16) :=
  match pairs_to_samples bs with
  | Some xs => Ok xs
  | None => Raise (ValueError "buffer size must be a multiple of element size")
  end.

(* ================================================================== *)
(** * app.py: the playback buffer *)

Module Playback.

(** The module-level [audio_buffer]; [buffer_lock] makes each of the
    operations below one atomic transition on it. *)
Definition audio_buffer : Type := list int16.

Definition empty : audio_buffer := [].

(** [audio_buffer_cb(pcm_audio_chunk)] *)
Definition audio_buffer_cb (pcm_audio_chunk : list int16)
    (buf : audio_buffer) : audio_buffer :=
  buf ++ pcm_audio_chunk.

Definition channels : nat := 1.

(** [sd_audio_cb(in_data, frame_count, time_info, status)].  The
    arguments [in_data], [time_info] and [status] are not read.  The
    result is the [data] of the returned pair (the flag is always
    [paContinue]) and the buffer after the call. *)
Definition sd_audio_cb (frame_count : nat) (buf : audio_buffer)
    : list byte * audio_buffer :=
  if (frame_count <=? length buf)%nat
  then (tobytes (firstn frame_count buf), skipn frame_count buf)
  else (tobytes (zeros (frame_count * channels)), buf).

(** [py_audio_callback], the closure inside [start_audio_stream]: the
    same body, written a second time in the source. *)
Definition py_audio_callback (frame_count : nat) (buf : audio_buffer)
    : list byte * audio_buffer :=
  if (frame_count <=? length buf)%nat
  then (tobytes (firstn frame_count buf), skipn frame_count buf)
  else (tobytes (zeros (frame_count * channels)), buf).

(** The samples the design document expects on an underrun: what is
    buffered, then silence up to [count]. *)
Definition padded (count : nat) (buf : audio_buffer) : list int16 :=
  buf ++ zeros (count - length buf).

End Playback.

(* ================================================================== *)
(** * utils.py: StreamingAudioRecorder *)

Module Recorder.

(** The PyAudio input stream returned by [p.open(...)]. *)
Record Stream : Type := {
  stream_channels : nat;
  stream_rate : nat;
  stream_frames_per_buffer : nat;
  stream_active : bool
}.

Record StreamingAudioRecorder : Type := {
  sample_rate : nat;
  channels : nat;
  frames_per_buffer : nat;
  audio_queue : list (list int16);   (* queue.Queue(), unbounded *)
  is_recording : bool;
  stream : option Stream
}.

(** [__init__(sample_rate=24000, channels=1, frames_per_buffer=2000)] *)
Definition init (rate chans fpb : nat) : StreamingAudioRecorder :=
  {| sample_rate := rate; channels := chans; frames_per_buffer := fpb;
     audio_queue := []; is_recording := false; stream := None |}.

Definition default : StreamingAudioRecorder := init 24000 1 2000.

Definition with_queue (q : list (list int16)) (r : StreamingAudioRecorder) :=
  {| sample_rate := sample_rate r; channels := channels r;
     frames_per_buffer := frames_per_buffer r;
     audio_queue := q; is_recording := is_recording r; stream := stream r |}.

Definition with_stream (st : option Stream) (rec : bool)
    (r : StreamingAudioRecorder) :=
  {| sample_rate := sample_rate r; channels := channels r;
     frames_per_buffer := frames_per_buffer r;
     audio_queue := audio_queue r; is_recording := rec; stream := st |}.

(** [callback(in_data, frame_count, time_info, status)]: only [in_data]
    is read; the returned pair is always [(None, paContinue)]. *)
Definition callback (in_data : list byte) : M StreamingAudioRecorder unit :=
  (pcm_audio_chunk <- (fun r => (frombuffer in_data, r)) ;;
   modify (fun r => with_queue (audio_queue r ++ [pcm_audio_chunk]) r))%py.

(** [start_recording()].  [device] is what [self.p.open(...)] does when
    it is reached: [None] when the input device opens, [Some e] when
    PyAudio raises [e]. *)
Definition start_recording (device : option exn)
    : M StreamingAudioRecorder unit :=
  fun r =>
    if is_recording r then (Ok tt, r)   (* return  # Already recording *)
    else match device with
         | Some e => (Raise e, r)
         | None =>
             (Ok tt,
              with_stream
                (Some {| stream_channels := channels r;
                         stream_rate := sample_rate r;
                         stream_frames_per_buffer := frames_per_buffer r;
                         stream_active := true |})
                true r)
         end.

(** [stop_recording()] *)
Definition stop_recording : M StreamingAudioRecorder unit :=
  fun r =>
    match is_recording r, stream r with
    | true, Some _ => (Ok tt, with_stream None false r)
    | _, _ => (Ok tt, r)
    end.

(** [get_audio_chunk()]: [get_nowait()], with [queue.Empty] turned into
    [None]. *)
Definition get_audio_chunk : M StreamingAudioRecorder (option (list int16)) :=
  fun r =>
    match audio_queue r with
    | [] => (Ok None, r)
    | chunk :: q => (Ok (Some chunk), with_queue q r)
    end.

(** The device thread: one [callback] per captured block.  A block that
    [callback] refuses leaves the recorder as it was. *)
Fixpoint capture (blocks : list (list byte)) (r : StreamingAudioRecorder)
    : StreamingAudioRecorder :=
  match blocks with
  | [] => r
  | b :: rest => capture rest (snd (callback b r))
  end.

(** The frames that [capture] puts on the queue. *)
Fixpoint frames_of (blocks : list (list byte)) : list (list int16) :=
  match blocks with
  | [] => []
  | b :: rest =>
      match frombuffer b with
      | Ok f => f :: frames_of rest
      | Raise _ => frames_of rest
      end
  end.

(** [n] successive calls of [get_audio_chunk], with what each returned. *)
Fixpoint get_chunks (n : nat) (r : StreamingAudioRecorder)
    : list (result (option (list int16))) * StreamingAudioRecorder :=
  match n with
  | O => ([], r)
  | S n' =>
      let (x, r1) := get_audio_chunk r in
      let (xs, r2) := get_chunks n' r1 in
      (x :: xs, r2)
  end.

End Recorder.

(* ================================================================== *)
(** * Python values carried by events *)

#[local] Unset Elimination Schemes.
Inductive py_value : Type :=
| PyNone
| PyBool (b : bool)
| PyInt (z : Z)
| PyStr (s : string)
| PyList (l : list py_value)
| PyDict (d : list (string * py_value)).
#[local] Set Elimination Schemes.

(** Truth value of an object, as [or] and [if] test it. *)
Definition truthy (v : py_value) : bool :=
  match v with
  | PyNone => false
  | PyBool b => b
  | PyInt z => negb (z =? 0)
  | PyStr s => negb (s =? "")%string
  | PyList l => match l with [] => false | _ => true end
  | PyDict d => match d with [] => false | _ => true end
  end.

(** [isinstance(v, dict)] *)
Definition is_dict (v : py_value) : bool :=
  match v with PyDict _ => true | _ => false end.

(** [v == s] for a str literal [s]. *)
Definition py_eq_str (v : py_value) (s : string) : bool :=
  match v with
  | PyStr t => (t =? s)%string
  | _ => false
  end.

Fixpoint dict_lookup (d : list (string * py_value)) (k : string)
    : option py_value :=
  match d with
  | [] => None
  | (k', v) :: rest => if (k' =? k)%string then Some v else dict_lookup rest k
  end.

(** [d[k] = v]: an existing key keeps its place, a new one goes last. *)
Fixpoint dict_set (d : list (string * py_value)) (k : string) (v : py_value)
    : list (string * py_value) :=
  match d with
  | [] => [(k, v)]
  | (k', v') :: rest =>
      if (k' =? k)%string then (k, v) :: rest
      else (k', v') :: dict_set rest k v
  end.

(** [{**base, **extra}] *)
Definition dict_merge (base extra : list (string * py_value))
    : list (string * py_value) :=
  fold_left (fun acc kv => dict_set acc (fst kv) (snd kv)) extra base.

(** [event.get(k)]: only a dict has the method. *)
Definition py_get (event : py_value) (k : string) : result py_value :=
  match event with
  | PyDict d => Ok (match dict_lookup d k with Some v => v | None => PyNone end)
  | _ => Raise AttributeError
  end.

(** [sub in s] on strings. *)
Fixpoint contains (sub s : string) : bool :=
  String.prefix sub s ||
  match s with
  | EmptyString => false
  | String _ s' => contains sub s'
  end.

(** [needle in v] for a str literal [needle]. *)
Definition py_in (needle : string) (v : py_value) : result bool :=
  match v with
  | PyStr s => Ok (contains needle s)
  | PyList l => Ok (existsb (fun x => py_eq_str x needle) l)
  | PyDict d => Ok (existsb (fun kv => (fst kv =? needle)%string) d)
  | PyNone | PyBool _ | PyInt _ => Raise TypeError
  end.

(** [t += v] for a str [t]. *)
Definition str_iadd (t : string) (v : py_value) : result string :=
  match v with
  | PyStr s => Ok (t ++ s)%string
  | _ => Raise TypeError
  end.

(* ================================================================== *)
(** * utils.py: SimpleRealtime *)

Module Client.

(** The connection object returned by [websockets.connect].  [outbox]
    holds, in order, the frames whose [ws.send(...)] was scheduled on
    the event loop. *)
Record WebSocket : Type := {
  open : bool;
  outbox : list string
}.

(** The asyncio task that runs [_message_handler]. *)
Inductive Task : Type := MkTask (done : bool).

(** One entry of [self.logs]: [(now, event_type, msg)]. *)
Definition log_entry : Type := (string * string * string)%type.

(** The sink given as [audio_buffer_cb]: it is applied to a decoded
    chunk and acts on the playback buffer. *)
Definition sink : Type :=
  list int16 -> Playback.audio_buffer -> Playback.audio_buffer.

Record SimpleRealtime : Type := {
  debug : bool;
  logs : list log_entry;
  transcript : string;
  ws : option WebSocket;
  _message_handler_task : option Task;
  audio_buffer_cb : option sink
}.

(** What a line written by [print] in this class reports. *)
Inductive printed : Type :=
| MessageHandlerError (e : exn).

(** Everything the client's methods can touch: the object itself, the
    playback buffer behind its sink, and standard output. *)
Record World : Type := {
  client : SimpleRealtime;
  audio_buffer : Playback.audio_buffer;
  stdout : list printed
}.

(** [__init__(event_loop, audio_buffer_cb, debug)] *)
Definition init (cb : option sink) (dbg : bool) : SimpleRealtime :=
  {| debug := dbg; logs := []; transcript := ""; ws := None;
     _message_handler_task := None; audio_buffer_cb := cb |}.

Definition with_client (f : SimpleRealtime -> SimpleRealtime) (w : World) :=
  {| client := f (client w); audio_buffer := audio_buffer w;
     stdout := stdout w |}.

Definition set_logs (l : list log_entry) (c : SimpleRealtime) :=
  {| debug := debug c; logs := l; transcript := transcript c; ws := ws c;
     _message_handler_task := _message_handler_task c;
     audio_buffer_cb := audio_buffer_cb c |}.

Definition set_transcript (t : string) (c : SimpleRealtime) :=
  {| debug := debug c; logs := logs c; transcript := t; ws := ws c;
     _message_handler_task := _message_handler_task c;
     audio_buffer_cb := audio_buffer_cb c |}.

Definition set_ws (s : option WebSocket) (c : SimpleRealtime) :=
  {| debug := debug c; logs := logs c; transcript := transcript c; ws := s;
     _message_handler_task := _message_handler_task c;
     audio_buffer_cb := audio_buffer_cb c |}.

Definition set_task (t : option Task) (c : SimpleRealtime) :=
  {| debug := debug c; logs := logs c; transcript := transcript c;
     ws := ws c; _message_handler_task := t;
     audio_buffer_cb := audio_buffer_cb c |}.

Definition set_audio_buffer (b : Playback.audio_buffer) (w : World) :=
  {| client := client w; audio_buffer := b; stdout := stdout w |}.

Definition print (p : printed) : M World unit :=
  modify (fun w => {| client := client w; audio_buffer := audio_buffer w;
                      stdout := stdout w ++ [p] |}).

(** Lift a result that touches no state. *)
Definition pure {A} (r : result A) : M World A := fun w => (r, w).

(** The error names of the design document, as the code raises them. *)
Definition AlreadyConnected : exn := Exception "Already connected".
Definition NotConnected : exn := Exception "RealtimeAPI is not connected".
Definition InvalidPayload : exn := ValueError "data must be a dictionary".

(** [is_connected()] *)
Definition is_connected (c : SimpleRealtime) : bool :=
  match ws c with
  | Some s => open s
  | None => false
  end.

(** What the event loop receives next from [self.ws.recv()] within the
    timeout: nothing, the closing of the connection, or a message.  A
    message comes with what [json.loads] makes of it. *)
Inductive incoming : Type :=
| RecvTimeout
| RecvClosed
| RecvMessage (message : string) (loads : result py_value).

(** How a run of [_message_handler] stands: still polling, left through
    [break], or ended by the outer handler. *)
Inductive handler_status : Type := Running | Finished | Crashed.

Section Environment.

(** The clock reading that [log_event] formats. *)
Variable now : string.
(** [json.dumps] *)
Variable json_dumps : py_value -> string.
(** [base64.b64decode] *)
Variable b64decode : py_value -> result (list byte).

(** [log_event(event_type, event)] *)
Definition log_event (event_type : string) (event : py_value)
    : M World bool :=
  fun w =>
    if debug (client w)
    then (Ok true,
          with_client
            (fun c => set_logs (logs c ++ [(now, event_type, json_dumps event)]) c)
            w)
    else (Ok true, w).

(** [connect(model)].  [handshake] is what [websockets.connect] does:
    [None] when it returns an open connection, [Some e] when it
    raises [e]. *)
Definition connect (model : string) (handshake : option exn)
    : M World bool :=
  fun w =>
    if is_connected (client w) then (Raise AlreadyConnected, w)
    else match handshake with
         | Some e => (Raise e, w)
         | None =>
             (Ok true,
              with_client
                (fun c =>
                   set_task (Some (MkTask false))
                     (set_ws (Some {| open := true; outbox := [] |}) c))
                w)
         end.

(** [disconnect()].  [ws.close()] and the wait for the cancelled task
    return normally. *)
Definition disconnect : M World bool :=
  (modify (fun w =>
             match ws (client w) with
             | Some _ => with_client (set_ws None) w
             | None => w
             end) ;;;
   modify (with_client (set_task None)) ;;;
   ret true)%py.

(** [handle_audio(event)] *)
Definition handle_audio (event : py_value) : M World unit :=
  (ty <- pure (py_get event "type") ;;
   (if py_eq_str ty "response.audio_transcript.delta"
    then
      delta <- pure (py_get event "delta") ;;
      w <- get ;;
      t <- pure (str_iadd (transcript (client w)) delta) ;;
      modify (with_client (set_transcript t))
    else ret tt) ;;;
   ty' <- pure (py_get event "type") ;;
   w <- get ;;
   match py_eq_str ty' "response.audio.delta", audio_buffer_cb (client w) with
   | true, Some cb =>
       b64_audio_chunk <- pure (py_get event "delta") ;;
       decoded_audio_chunk <- pure (b64decode b64_audio_chunk) ;;
       pcm_audio_chunk <- pure (frombuffer decoded_audio_chunk) ;;
       modify (fun w => set_audio_buffer (cb pcm_audio_chunk (audio_buffer w)) w)
   | _, _ => ret tt
   end)%py.

(** [receive(event)] *)
Definition receive (event : py_value) : M World bool :=
  (log_event "server" event ;;;
   ty <- pure (py_get event "type") ;;
   is_audio <- pure (py_in "response.audio" ty) ;;
   (if is_audio then handle_audio event else ret tt) ;;;
   ret true)%py.

(** [self.event_loop.create_task(self.ws.send(frame))] *)
Definition schedule_send (frame : string) : M World unit :=
  fun w =>
    match ws (client w) with
    | Some s =>
        (Ok tt,
         with_client
           (set_ws (Some {| open := open s; outbox := outbox s ++ [frame] |}))
           w)
    | None => (Raise AttributeError, w)
    end.

(** [send(event_name, data=None)] *)
Definition send (event_name : string) (data : py_value) : M World bool :=
  (w <- get ;;
   if negb (is_connected (client w)) then raise NotConnected
   else
     let data := if truthy data then data else PyDict [] in
     match data with
     | PyDict d =>
         let event := PyDict (dict_merge [("type", PyStr event_name)] d) in
         log_event "client" event ;;;
         schedule_send (json_dumps event) ;;;
         ret true
     | _ => raise InvalidPayload
     end)%py.

(** [await asyncio.wait_for(self.ws.recv(), timeout=0.05)].  When the
    connection has closed, the library has marked it so. *)
Definition recv (i : incoming) : M World (result py_value) :=
  match i with
  | RecvTimeout => raise TimeoutError
  | RecvClosed =>
      (modify (with_client (fun c =>
                 match ws c with
                 | Some s => set_ws (Some {| open := false; outbox := outbox s |}) c
                 | None => c
                 end)) ;;;
       raise ConnectionClosed)%py
  | RecvMessage _ loads => ret loads
  end.

(** The body of the inner [try]. *)
Definition handler_body (i : incoming) : M World bool :=
  (loads <- recv i ;;
   data <- pure loads ;;
   receive data)%py.

(** The outer [except Exception as e]. *)
Definition handler_except (e : exn) : M World bool :=
  (print (MessageHandlerError e) ;;; disconnect)%py.

(** The task has returned. *)
Definition task_done (w : World) : World :=
  with_client
    (fun c => match _message_handler_task c with
              | Some _ => set_task (Some (MkTask true)) c
              | None => c
              end) w.

(** [_message_handler()], run against what the connection delivers at
    each turn of the [while True] loop.  A turn taken while [self.ws]
    is unset sleeps and reads nothing.  When the list is used up the
    loop is still polling. *)
Fixpoint _message_handler (script : list incoming) (w : World)
    : handler_status * World :=
  match script with
  | [] => (Running, w)
  | i :: rest =>
      match ws (client w) with
      | None => _message_handler rest w
      | Some _ =>
          match handler_body i w with
          | (Ok _, w') => _message_handler rest w'
          | (Raise TimeoutError, w') => _message_handler rest w'
          | (Raise ConnectionClosed, w') => (Finished, task_done w')
          | (Raise e, w') => (Crashed, task_done (snd (handler_except e w')))
          end
      end
  end.

(** Successive calls of [receive]; the object keeps whatever each call
    did, also one that raised. *)
Fixpoint receive_all (events : list py_value) (w : World) : World :=
  match events with
  | [] => w
  | ev :: rest => receive_all rest (snd (receive ev w))
  end.

End Environment.

(** The events of a script that [json.loads] decoded. *)
Definition decoded (script : list incoming) : list py_value :=
  flat_map (fun i => match i with
                     | RecvMessage _ (Ok ev) => [ev]
                     | _ => []
                     end) script.

(** A server event with the given tag and [delta] field. *)
Definition delta_event (ty : string) (delta : py_value) : py_value :=
  PyDict [("type", PyStr ty); ("delta", delta)].

(** The text a received event adds to the transcript: the [delta] of a
    [response.audio_transcript.delta] event. *)
Definition transcript_delta (event : py_value) : string :=
  match py_get event "type", py_get event "delta" with
  | Ok ty, Ok (PyStr d) =>
      if py_eq_str ty "response.audio_transcript.delta" then d else ""
  | _, _ => ""
  end.

Definition transcript_deltas (events : list py_value) : string :=
  fold_right (fun ev acc => (transcript_delta ev ++ acc)%string) "" events.

End Client.

(* ================================================================== *)
(** * A concrete environment and concrete states

    Reference versions of the three things the client takes from its
    surroundings, and the states the application starts from; they are
    used to run the model on concrete inputs. *)

Module Samples.
Import Client.

(** A clock reading, as [strftime("%H:%M:%S")] formats it. *)
Definition now : string := "12:00:00".

Definition dquote : string := String (ascii_of_nat 34) EmptyString.

Definition quoted (s : string) : string := (dquote ++ s ++ dquote)%string.

Definition string_of_Z (z : Z) : string :=
  NilEmpty.string_of_int (Z.to_int z).

(** [json.dumps] with its default separators, for values whose strings
    need no escape. *)
Fixpoint json_dumps (v : py_value) : string :=
  match v with
  | PyNone => "null"
  | PyBool true => "true"
  | PyBool false => "false"
  | PyInt z => string_of_Z z
  | PyStr s => quoted s
  | PyList l =>
      let fix items (l : list py_value) : string :=
        match l with
        | [] => ""
        | [x] => json_dumps x
        | x :: rest => (json_dumps x ++ ", " ++ items rest)%string
        end in
      ("[" ++ items l ++ "]")%string
  | PyDict d =>
      let fix members (d : list (string * py_value)) : string :=
        match d with
        | [] => ""
        | [(k, x)] => (quoted k ++ ": " ++ json_dumps x)%string
        | (k, x) :: rest =>
            (quoted k ++ ": " ++ json_dumps x ++ ", " ++ members rest)%string
        end in
      ("{" ++ members d ++ "}")%string
  end.

(** The value of a character in the base64 alphabet. *)
Definition b64_value (c : ascii) : option N :=
  let n := N_of_ascii c in
  if ((65 <=? n) && (n <=? 90))%N then Some (n - 65)%N
  else if ((97 <=? n) && (n <=? 122))%N then Some (n - 71)%N
  else if ((48 <=? n) && (n <=? 57))%N then Some (n + 4)%N
  else if (n =? 43)%N then Some 62%N
  else if (n =? 47)%N then Some 63%N
  else None.

Definition byte_of_N (n : N) : byte := byte_of_Z (Z.of_N n).

(** [binascii.a2b_base64] in its lenient mode: characters outside the
    alphabet are skipped, decoding stops at the padding that completes
    a quantum, and a quantum left open at the end is an error.
    [quad_pos] counts the characters of the open quantum, [leftchar]
    holds its pending bits, [pads] the padding seen in a row. *)
Fixpoint a2b_base64 (s : string) (quad_pos : nat) (leftchar : N)
    (pads : nat) (out : list byte) : result (list byte) :=
  match s with
  | EmptyString =>
      match quad_pos with
      | O => Ok out
      | _ => Raise BinasciiError
      end
  | String c rest =>
      if (N_of_ascii c =? 61)%N then
        if (2 <=? quad_pos)%nat then
          if (4 <=? quad_pos + S pads)%nat then Ok out
          else a2b_base64 rest quad_pos leftchar (S pads) out
        else a2b_base64 rest quad_pos leftchar pads out
      else
        match b64_value c with
        | None => a2b_base64 rest quad_pos leftchar pads out
        | Some v =>
            match quad_pos with
            | 0%nat => a2b_base64 rest 1 v 0 out
            | 1%nat =>
                a2b_base64 rest 2 (N.land v 15) 0
                  (out ++ [byte_of_N (N.lor (N.shiftl leftchar 2) (N.shiftr v 4))])
            | 2%nat =>
                a2b_base64 rest 3 (N.land v 3) 0
                  (out ++ [byte_of_N (N.lor (N.shiftl leftchar 4) (N.shiftr v 2))])
            | _ =>
                a2b_base64 rest 0 0 0
                  (out ++ [byte_of_N (N.lor (N.shiftl leftchar 6) v)])
            end
        end
  end.

Fixpoint is_ascii (s : string) : bool :=
  match s with
  | EmptyString => true
  | String c rest => (N_of_ascii c <? 128)%N && is_ascii rest
  end.

(** [base64.b64decode] on a value taken from an event. *)
Definition b64decode (v : py_value) : result (list byte) :=
  match v with
  | PyStr s =>
      if is_ascii s then a2b_base64 s 0 0 0 []
      else Raise (ValueError "string argument should contain only ASCII characters")
  | _ => Raise TypeError
  end.

(** The client as [initialize_client] builds it, before [connect]. *)
Definition fresh : World :=
  {| client := init (Some Playback.audio_buffer_cb) true;
     audio_buffer := Playback.empty;
     stdout := [] |}.

(** The same after a successful [connect]. *)
Definition connected : World :=
  snd (connect "gpt-4o-realtime-preview-2024-10-01" None fresh).

(** A message that is not JSON. *)
Definition malformed : incoming :=
  RecvMessage "{oops" (Raise JSONDecodeError).

(** A transcript delta, as text and as [json.loads] returns it. *)
Definition transcript_message (d : string) : incoming :=
  let ev := delta_event "response.audio_transcript.delta" (PyStr d) in
  RecvMessage (json_dumps ev) (Ok ev).

(** An audio delta. *)
Definition audio_message (b64 : string) : incoming :=
  let ev := delta_event "response.audio.delta" (PyStr b64) in
  RecvMessage (json_dumps ev) (Ok ev).

(** A captured block of [n] samples of value [x]. *)
Definition block (x : int16) (n : nat) : list byte := tobytes (repeat x n).

End Samples.

(* ================================================================== *)
(** * app.py: the session state and the functions that drive the client *)

Module App.

(** [SYSTEM_MESSAGE] *)
Definition SYSTEM_MESSAGE : string :=
  ("You are a highly skilled AI assistant who specializes in translating Thai to English. "
   ++ "Your job is to accurately and clearly interpret and translate all Thai speech or text "
   ++ "into natural, fluent English. Please ensure that the translation remains polite and precise. "
   ++ "Do not change the meaning of what is being said, and always prioritize clarity and correctness.")%string.

(** The default of [connect]'s [model] argument. *)
Definition default_model : string := "gpt-4o-realtime-preview-2024-10-01".

(** What [st.session_state.connection_error] holds: a literal text, or
    [str(e)] of a caught exception. *)
Inductive error_text : Type :=
| Text (s : string)
| StrOf (e : exn).

(** What a line written by [print] in [app.py] reports. *)
Inductive app_printed : Type :=
| SendingSessionUpdate (session_update : py_value)
| WsAttributeNotFound.

(** [st.session_state], with the module-level [audio_buffer] and the two
    streams of printed lines (those of the client class and those of
    [app.py]). *)
Record State : Type := {
  audio_stream_started : bool;
  connected : bool;
  connection_error : option error_text;
  client : option Client.SimpleRealtime;
  recorder : Recorder.StreamingAudioRecorder;
  recording : bool;
  audio_buffer : Playback.audio_buffer;
  client_stdout : list Client.printed;
  stdout : list app_printed
}.

(** The state after the module-level initialisation, before
    [initialize_client()] runs. *)
Definition initial : State :=
  {| audio_stream_started := false; connected := false;
     connection_error := None; client := None;
     recorder := Recorder.default; recording := false;
     audio_buffer := Playback.empty; client_stdout := []; stdout := [] |}.

Definition set_connected (b : bool) (e : option error_text) (a : State) :=
  {| audio_stream_started := audio_stream_started a; connected := b;
     connection_error := e; client := client a; recorder := recorder a;
     recording := recording a; audio_buffer := audio_buffer a;
     client_stdout := client_stdout a; stdout := stdout a |}.

Definition set_client (c : option Client.SimpleRealtime) (a : State) :=
  {| audio_stream_started := audio_stream_started a; connected := connected a;
     connection_error := connection_error a; client := c;
     recorder := recorder a; recording := recording a;
     audio_buffer := audio_buffer a; client_stdout := client_stdout a;
     stdout := stdout a |}.

Definition set_recorder (r : Recorder.StreamingAudioRecorder) (a : State) :=
  {| audio_stream_started := audio_stream_started a; connected := connected a;
     connection_error := connection_error a; client := client a;
     recorder := r; recording := recording a;
     audio_buffer := audio_buffer a; client_stdout := client_stdout a;
     stdout := stdout a |}.

Definition set_recording (b : bool) (a : State) :=
  {| audio_stream_started := audio_stream_started a; connected := connected a;
     connection_error := connection_error a; client := client a;
     recorder := recorder a; recording := b;
     audio_buffer := audio_buffer a; client_stdout := client_stdout a;
     stdout := stdout a |}.

Definition set_audio_stream_started (b : bool) (a : State) :=
  {| audio_stream_started := b; connected := connected a;
     connection_error := connection_error a; client := client a;
     recorder := recorder a; recording := recording a;
     audio_buffer := audio_buffer a; client_stdout := client_stdout a;
     stdout := stdout a |}.

Definition print (p : app_printed) : M State unit :=
  modify (fun a =>
    {| audio_stream_started := audio_stream_started a; connected := connected a;
       connection_error := connection_error a; client := client a;
       recorder := recorder a; recording := recording a;
       audio_buffer := audio_buffer a; client_stdout := client_stdout a;
       stdout := stdout a ++ [p] |}).

(** A method call on [st.session_state.client]; on [None] the attribute
    lookup fails. *)
Definition on_client {A} (m : M Client.World A) : M State A :=
  fun a =>
    match client a with
    | None => (Raise AttributeError, a)
    | Some c =>
        let (r, w) := m {| Client.client := c;
                           Client.audio_buffer := audio_buffer a;
                           Client.stdout := client_stdout a |} in
        (r,
         {| audio_stream_started := audio_stream_started a;
            connected := connected a;
            connection_error := connection_error a;
            client := Some (Client.client w);
            recorder := recorder a; recording := recording a;
            audio_buffer := Client.audio_buffer w;
            client_stdout := Client.stdout w; stdout := stdout a |})
    end.

(** A method call on [st.session_state.recorder]. *)
Definition on_recorder {A} (m : M Recorder.StreamingAudioRecorder A)
    : M State A :=
  fun a => let (r, rec) := m (recorder a) in (r, set_recorder rec a).

(** [try: body except Exception as e: handler(e)] *)
Definition try_except {A} (body : M State A) (handler : exn -> M State A)
    : M State A :=
  fun a => match body a with
           | (Ok x, a') => (Ok x, a')
           | (Raise e, a') => handler e a'
           end.

(** The frames the connection of the client has been given, oldest first. *)
Definition outbox (a : State) : list string :=
  match client a with
  | Some c => match Client.ws c with
              | Some s => Client.outbox s
              | None => []
              end
  | None => []
  end.

Definition is_connected (a : State) : bool :=
  match client a with
  | Some c => Client.is_connected c
  | None => false
  end.

Section Environment.

Variable now : string.
Variable json_dumps : py_value -> string.
(** [base64.b64encode(...).decode()] *)
Variable b64encode : list byte -> string.

(** The [session_update] dict of [send_session_update]. *)
Definition session_update : py_value :=
  PyDict [("type", PyStr "session.update");
          ("session",
           PyDict [("turn_detection", PyDict [("type", PyStr "server_vad")]);
                   ("instructions", PyStr SYSTEM_MESSAGE)])].

(** [await ws.send(frame)] on the connection of the client: a closed
    connection refuses the frame. *)
Definition ws_send (frame : string) : M Client.World unit :=
  fun w =>
    match Client.ws (Client.client w) with
    | Some s =>
        if Client.open s
        then (Ok tt,
              Client.with_client
                (Client.set_ws
                   (Some {| Client.open := true;
                            Client.outbox := Client.outbox s ++ [frame] |}))
                w)
        else (Raise ConnectionClosed, w)
    | None => (Raise AttributeError, w)
    end.

(** [send_session_update(ws)], called with [ws] the connection of the
    client. *)
Definition send_session_update : M State unit :=
  (print (SendingSessionUpdate session_update) ;;;
   on_client (ws_send (json_dumps session_update)))%py.

(** [initialize_client()].  [handshake] is what [websockets.connect]
    does, as for [Client.connect]. *)
Definition initialize_client (handshake : option exn) : M State unit :=
  fun a =>
    match client a with
    | Some _ => (Ok tt, a)
    | None =>
        let a := set_client
                   (Some (Client.init (Some Playback.audio_buffer_cb) true)) a in
        try_except
          (on_client (Client.connect default_model handshake) ;;;
           a' <- get ;;
           if is_connected a'
           then modify (fun a => set_connected true (connection_error a) a) ;;;
                send_session_update
           else modify (set_connected false
                          (Some (Text "Unknown error during connection."))))%py
          (fun e => modify (set_connected false (Some (StrOf e))))
          a
    end.

(** [start_recording()], the button callback.  [device] is what opening
    the input device does, as for [Recorder.start_recording]. *)
Definition start_recording (device : option exn) : M State unit :=
  fun a =>
    if negb (recording a)
    then (modify (set_recording true) ;;;
          on_recorder (Recorder.start_recording device))%py a
    else (Ok tt, a).

(** [stop_recording()], the button callback. *)
Definition stop_recording : M State unit :=
  fun a =>
    if recording a
    then (modify (set_recording false) ;;;
          on_recorder Recorder.stop_recording ;;;
          on_client (Client.send now json_dumps "input_audio_buffer.commit" PyNone) ;;;
          on_client (Client.send now json_dumps "response.create"
                       (PyDict [("system_message", PyStr SYSTEM_MESSAGE)])) ;;;
          ret tt)%py a
    else (Ok tt, a).

(** [audio_player()]: the playback thread is started once. *)
Definition audio_player : M State unit :=
  fun a =>
    if negb (audio_stream_started a)
    then (Ok tt, set_audio_stream_started true a)
    else (Ok tt, a).

(** The payload [audio_recorder] sends for one chunk. *)
Definition append_payload (chunk : list int16) : py_value :=
  PyDict [("audio", PyStr (b64encode (tobytes chunk)))].

(** The [while not ...audio_queue.empty()] loop of [audio_recorder].
    [fuel] bounds the number of turns; [None] means it was used up with
    the queue still not empty. *)
Fixpoint audio_recorder_loop (fuel : nat) (a : State)
    : option (result unit * State) :=
  match Recorder.audio_queue (recorder a) with
  | [] => Some (Ok tt, a)
  | _ :: _ =>
      match fuel with
      | O => None
      | S fuel' =>
          match on_recorder Recorder.get_audio_chunk a with
          | (Raise e, a1) => Some (Raise e, a1)
          | (Ok None, a1) => audio_recorder_loop fuel' a1
          | (Ok (Some chunk), a1) =>
              match on_client
                      (Client.send now json_dumps "input_audio_buffer.append"
                         (append_payload chunk)) a1 with
              | (Raise e, a2) => Some (Raise e, a2)
              | (Ok _, a2) => audio_recorder_loop fuel' a2
              end
          end
      end
  end.

(** [audio_recorder()] *)
Definition audio_recorder (fuel : nat) (a : State)
    : option (result unit * State) :=
  if recording a then audio_recorder_loop fuel a else Some (Ok tt, a).

End Environment.

End App.

(* ================================================================== *)
(** * Runs of the components under arbitrary use *)

Module Usage.

(** What happens to the playback buffer: a decoded chunk arrives, or the
    output device asks for [frame_count] samples. *)
Inductive playback_event : Type :=
| Arrive (chunk : list int16)
| Pull (frame_count : nat).

(** A run of the playback side.  The first component collects the data
    of the calls that were served from the buffer, in order; the data of
    a call that found too few samples is silence and is left out. *)
Fixpoint play (events : list playback_event) (buf : Playback.audio_buffer)
    : list byte * Playback.audio_buffer :=
  match events with
  | [] => ([], buf)
  | Arrive chunk :: rest => play rest (Playback.audio_buffer_cb chunk buf)
  | Pull n :: rest =>
      let (data, buf') := Playback.sd_audio_cb n buf in
      let (out, final) := play rest buf' in
      ((if (n <=? length buf)%nat then data else []) ++ out, final)
  end.

(** The chunks that arrive during a run, joined in order. *)
Fixpoint arrived (events : list playback_event) : list int16 :=
  match events with
  | [] => []
  | Arrive chunk :: rest => chunk ++ arrived rest
  | Pull _ :: rest => arrived rest
  end.

(** What can be done to a recorder. *)
Inductive recorder_action : Type :=
| Start (device : option exn)
| Stop
| Block (in_data : list byte)
| GetChunk.

Definition act (x : recorder_action) (r : Recorder.StreamingAudioRecorder)
    : Recorder.StreamingAudioRecorder :=
  match x with
  | Start device => snd (Recorder.start_recording device r)
  | Stop => snd (Recorder.stop_recording r)
  | Block in_data => snd (Recorder.callback in_data r)
  | GetChunk => snd (Recorder.get_audio_chunk r)
  end.

Definition acts (xs : list recorder_action)
    (r : Recorder.StreamingAudioRecorder) : Recorder.StreamingAudioRecorder :=
  fold_left (fun r x => act x r) xs r.

(** The recording flag and the stream handle agree. *)
Definition flag_matches_stream (r : Recorder.StreamingAudioRecorder) : Prop :=
  Recorder.is_recording r = true <-> Recorder.stream r <> None.

(** Successive calls of [send], stopping at the first that raises. *)
Fixpoint send_all (now : string) (json_dumps : py_value -> string)
    (calls : list (string * py_value)) : M Client.World bool :=
  match calls with
  | [] => ret true
  | (event_name, data) :: rest =>
      (Client.send now json_dumps event_name data ;;;
       send_all now json_dumps rest)%py
  end.

(** The event [send] builds from its arguments when it accepts them. *)
Definition event_of (event_name : string) (data : py_value) : py_value :=
  match (if truthy data then data else PyDict []) with
  | PyDict d => PyDict (dict_merge [("type", PyStr event_name)] d)
  | _ => PyNone
  end.

Definition accepted (data : py_value) : bool :=
  is_dict data || negb (truthy data).

(** The outbox of the client's connection, empty without one. *)
Definition outbox (w : Client.World) : list string :=
  match Client.ws (Client.client w) with
  | Some s => Client.outbox s
  | None => []
  end.

(** The actions that put a frame on the queue or take one off. *)
Definition touches_queue (x : recorder_action) : bool :=
  match x with
  | Block _ | GetChunk => true
  | Start _ | Stop => false
  end.

(** A turn of the receive loop in which nothing arrived. *)
Definition is_timeout (i : Client.incoming) : bool :=
  match i with
  | Client.RecvTimeout => true
  | _ => false
  end.

(** An [int16] value. *)
Definition in_int16 (x : Z) : Prop := -32768 <= x < 32768.

End Usage.

(* ================================================================== *)
(** * A concrete base64 encoder and concrete application states *)

Module AppSamples.

Definition b64_char (n : N) : ascii :=
  ascii_of_N (if (n <? 26)%N then n + 65
              else if (n <? 52)%N then n + 71
              else if (n <? 62)%N then n - 4
              else if (n =? 62)%N then 43 else 47)%N.

Definition N_of_byte (b : byte) : N := Byte.to_N b.

(** [base64.b64encode(...).decode()] *)
Fixpoint b64encode (bs : list byte) : string :=
  match bs with
  | [] => ""
  | [a] =>
      let x := N_of_byte a in
      String (b64_char (N.shiftr x 2))
        (String (b64_char (N.shiftl (N.land x 3) 4)) "==")
  | [a; b] =>
      let x := N_of_byte a in
      let y := N_of_byte b in
      String (b64_char (N.shiftr x 2))
        (String (b64_char (N.lor (N.shiftl (N.land x 3) 4) (N.shiftr y 4)))
           (String (b64_char (N.shiftl (N.land y 15) 2)) "="))
  | a :: b :: c :: rest =>
      let x := N_of_byte a in
      let y := N_of_byte b in
      let z := N_of_byte c in
      String (b64_char (N.shiftr x 2))
        (String (b64_char (N.lor (N.shiftl (N.land x 3) 4) (N.shiftr y 4)))
           (String (b64_char (N.lor (N.shiftl (N.land y 15) 2) (N.shiftr z 6)))
              (String (b64_char (N.land z 63)) (b64encode rest))))
  end.

(** The application after [initialize_client()] reached the server. *)
Definition ready : App.State :=
  snd (App.initialize_client Samples.json_dumps None App.initial).

(** The same with recording started and two blocks captured. *)
Definition recording_two_blocks : App.State :=
  let a := snd (App.start_recording None ready) in
  App.set_recorder
    (Recorder.capture [Samples.block 1 3; Samples.block (-2) 2] (App.recorder a))
    a.

(** A session whose connection attempt failed, with recording started
    all the same. *)
Definition offline_recording : App.State :=
  snd (App.start_recording None
         (snd (App.initialize_client Samples.json_dumps (Some OSError)
                 App.initial))).

(** A connection that is open and has sent nothing. *)
Definition open_socket : Client.WebSocket :=
  {| Client.open := true; Client.outbox := [] |}.

(** An audio delta whose payload is not complete base64. *)
Definition bad_audio_event : py_value :=
  Client.delta_event "response.audio.delta" (PyStr "AAE").

End AppSamples.

(* ================================================================== *)
(** * Properties of the playback buffer *)

Section PlaybackFacts.
Import Playback.

Lemma tobytes_length (a : list int16) :
  length (tobytes a) = (2 * length a)%nat.
Proof.
  unfold tobytes.
  induction a as [|x a IH]; simpl; [reflexivity|].
  rewrite IH. lia.
Qed.

Lemma zeros_length (n : nat) : length (zeros n) = n.
Proof. apply repeat_length. Qed.

Lemma zeros_all_zero (n : nat) : Forall (fun x => x = 0) (zeros n).
Proof.
  unfold zeros. induction n; simpl; constructor; auto.
Qed.

(** The two callbacks are one function. *)
Lemma py_audio_callback_eq (n : nat) (buf : audio_buffer) :
  py_audio_callback n buf = sd_audio_cb n buf.
Proof. reflexivity. Qed.

Lemma sd_audio_cb_underrun (n : nat) (buf : audio_buffer) :
  (length buf < n)%nat ->
  sd_audio_cb n buf = (tobytes (zeros n), buf).
Proof.
  intros Hlt. unfold sd_audio_cb, channels.
  destruct (Nat.leb_spec n (length buf)) as [Hle|_]; [lia|].
  now rewrite Nat.mul_1_r.
Qed.

Lemma sd_audio_cb_enough (n : nat) (buf : audio_buffer) :
  (n <= length buf)%nat ->
  sd_audio_cb n buf = (tobytes (firstn n buf), skipn n buf).
Proof.
  intros Hle. unfold sd_audio_cb.
  destruct (Nat.leb_spec n (length buf)) as [_|Hlt]; [reflexivity|lia].
Qed.

(** With enough samples the callback serves the oldest [n] and keeps
    the rest: nothing is lost or reordered. *)
Lemma sd_audio_cb_fifo (n : nat) (buf : audio_buffer) :
  (n <= length buf)%nat ->
  exists served,
    fst (sd_audio_cb n buf) = tobytes served /\
    length served = n /\
    served ++ snd (sd_audio_cb n buf) = buf.
Proof.
  intros Hle. rewrite (sd_audio_cb_enough _ _ Hle). simpl.
  exists (firstn n buf). repeat split.
  - rewrite length_firstn. lia.
  - apply firstn_skipn.
Qed.

(** C1, as the design document words it, fails: with one sample [5]
    buffered and two requested, the callback hands out two zero samples,
    not the sample [5] followed by one zero. *)
Lemma underrun_pads_buffered_counterexample :
  (length [5%Z] < 2)%nat /\
  fst (sd_audio_cb 2 [5]) <> tobytes (padded 2 [5]) /\
  fst (py_audio_callback 2 [5]) <> tobytes (padded 2 [5]).
Proof.
  split; [simpl; lia|].
  split; vm_compute; discriminate.
Qed.

(** C1 (amended): when fewer than [count] samples are buffered, each of
    the two playback callbacks returns the bytes of exactly [count]
    samples, every one of them zero; the call is a total function of the
    buffer, so it returns and raises nothing. *)
Theorem underrun_returns_silence (count : nat) (buf : audio_buffer) :
  (length buf < count)%nat ->
  exists samples,
    fst (sd_audio_cb count buf) = tobytes samples /\
    fst (py_audio_callback count buf) = tobytes samples /\
    length samples = count /\
    Forall (fun x => x = 0) samples /\
    length (fst (sd_audio_cb count buf)) = (2 * count)%nat.
Proof.
  intros Hlt. exists (zeros count).
  change (py_audio_callback count buf) with (sd_audio_cb count buf).
  rewrite (sd_audio_cb_underrun _ _ Hlt). simpl.
  repeat split.
  - apply zeros_length.
  - apply zeros_all_zero.
  - now rewrite tobytes_length, zeros_length.
Qed.

Lemma underrun_returns_silence_witness :
  (length [7; -3]%Z < 4)%nat /\
  exists samples,
    fst (sd_audio_cb 4 [7; -3]) = tobytes samples /\
    fst (py_audio_callback 4 [7; -3]) = tobytes samples /\
    length samples = 4%nat /\
    Forall (fun x => x = 0) samples /\
    length (fst (sd_audio_cb 4 [7; -3])) = (2 * 4)%nat.
Proof.
  split; [simpl; lia|].
  apply (underrun_returns_silence 4 [7; -3]). simpl; lia.
Defined.

(** C10: a callback that finds fewer than [frame_count] samples leaves
    the buffer exactly as it was, and once a chunk has arrived that
    brings the buffer to [frame_count] samples or more, the next call
    returns all the samples that were waiting, in order, ahead of the
    new ones. *)
Theorem underrun_keeps_buffer (frame_count : nat) (buf : audio_buffer) :
  (length buf < frame_count)%nat ->
  snd (sd_audio_cb frame_count buf) = buf /\
  snd (py_audio_callback frame_count buf) = buf /\
  forall chunk,
    (frame_count <= length (buf ++ chunk))%nat ->
    let later := audio_buffer_cb chunk (snd (sd_audio_cb frame_count buf)) in
    fst (sd_audio_cb frame_count later)
      = tobytes (buf ++ firstn (frame_count - length buf) chunk) /\
    fst (py_audio_callback frame_count later)
      = tobytes (buf ++ firstn (frame_count - length buf) chunk).
Proof.
  intros Hlt.
  change (py_audio_callback frame_count buf) with (sd_audio_cb frame_count buf).
  rewrite (sd_audio_cb_underrun _ _ Hlt). simpl.
  repeat split; try reflexivity;
    change (py_audio_callback frame_count (audio_buffer_cb chunk buf))
      with (sd_audio_cb frame_count (audio_buffer_cb chunk buf));
    unfold audio_buffer_cb;
    rewrite (sd_audio_cb_enough _ _ H); simpl;
    rewrite firstn_app, firstn_all2 by lia; reflexivity.
Qed.

Lemma underrun_keeps_buffer_witness :
  (length [7; -3]%Z < 4)%nat /\
  snd (sd_audio_cb 4 [7; -3]) = [7; -3] /\
  fst (sd_audio_cb 4 (audio_buffer_cb [1; 2; 3]
                        (snd (sd_audio_cb 4 [7; -3]))))
    = tobytes [7; -3; 1; 2].
Proof.
  assert (Hlt : (length [7; -3]%Z < 4)%nat) by (simpl; lia).
  destruct (underrun_keeps_buffer 4 [7; -3] Hlt) as (Hkeep & _ & Hlater).
  split; [exact Hlt|]. split; [exact Hkeep|].
  apply (Hlater [1; 2; 3]). simpl; lia.
Defined.

End PlaybackFacts.

(* ================================================================== *)
(** * Properties of the capture session *)

Section RecorderFacts.
Import Recorder.

Lemma callback_queue (b : list byte) (r : StreamingAudioRecorder) :
  audio_queue (snd (callback b r))
    = audio_queue r ++ frames_of [b].
Proof.
  unfold callback, bind, modify. simpl.
  destruct (frombuffer b); simpl.
  - reflexivity.
  - now rewrite app_nil_r.
Qed.

Lemma capture_queue (blocks : list (list byte)) :
  forall r, audio_queue (capture blocks r) = audio_queue r ++ frames_of blocks.
Proof.
  induction blocks as [|b rest IH]; intros r; simpl.
  - now rewrite app_nil_r.
  - rewrite IH, callback_queue. simpl.
    destruct (frombuffer b); simpl.
    + now rewrite <- app_assoc.
    + now rewrite app_nil_r.
Qed.

Lemma get_chunks_empty (n : nat) :
  forall r, audio_queue r = [] ->
    get_chunks n r = (repeat (Ok None) n, r).
Proof.
  induction n as [|n IH]; intros r Hq; simpl; [reflexivity|].
  unfold get_audio_chunk. rewrite Hq. now rewrite (IH r Hq).
Qed.

Lemma get_chunks_drain (q : list (list int16)) (n : nat) :
  forall r, audio_queue r = q ->
    fst (get_chunks (length q + n) r)
      = map (fun f => Ok (Some f)) q ++ repeat (Ok None) n /\
    audio_queue (snd (get_chunks (length q + n) r)) = [].
Proof.
  induction q as [|f q IH]; intros r Hq; simpl.
  - now rewrite (get_chunks_empty n r Hq).
  - unfold get_audio_chunk. rewrite Hq.
    destruct (IH (with_queue q r) eq_refl) as [Hres Hleft].
    destruct (get_chunks (length q + n) (with_queue q r)) as [xs r2].
    simpl in *. now rewrite Hres.
Qed.

Lemma stop_recording_queue (r : StreamingAudioRecorder) :
  audio_queue (snd (stop_recording r)) = audio_queue r.
Proof.
  unfold stop_recording.
  destruct (is_recording r), (stream r); reflexivity.
Qed.

(** C9: the frames that the capture callback put on the queue come back
    from successive [get_audio_chunk] calls in the order they were put,
    ahead of them whatever was queued before; every call returns at once
    with a value; and once the queue is drained each further call
    returns [None].  Stopping the recorder first changes none of this. *)
Theorem get_audio_chunk_fifo
    (r : StreamingAudioRecorder) (blocks : list (list byte)) (n : nat) :
  let q := audio_queue r ++ frames_of blocks in
  let r' := capture blocks r in
  fst (get_chunks (length q + n) r')
    = map (fun f => Ok (Some f)) q ++ repeat (Ok None) n /\
  fst (get_chunks (length q + n) (snd (stop_recording r')))
    = map (fun f => Ok (Some f)) q ++ repeat (Ok None) n /\
  audio_queue (snd (get_chunks (length q + n) r')) = [].
Proof.
  intros q r'.
  assert (Hq : audio_queue r' = q) by apply capture_queue.
  destruct (get_chunks_drain q n r' Hq) as [H1 H3].
  assert (Hq' : audio_queue (snd (stop_recording r')) = q)
    by now rewrite stop_recording_queue.
  destruct (get_chunks_drain q n _ Hq') as [H2 _].
  auto.
Qed.

(** C6, as the design document words it, fails: a second
    [start_recording] on a recorder that is recording raises nothing. *)
Lemma start_recording_twice_counterexample :
  let r1 := snd (start_recording None default) in
  is_recording r1 = true /\
  forall e, fst (start_recording None r1) <> Raise e.
Proof.
  split; [reflexivity|].
  intros e. vm_compute. discriminate.
Qed.

(** C6 (amended): [start_recording] called while recording is in
    progress returns normally, without an error, and leaves the recorder
    as it was: no second stream is opened, whatever the device would
    have done. *)
Theorem start_recording_while_recording
    (device : option exn) (r : StreamingAudioRecorder) :
  is_recording r = true ->
  start_recording device r = (Ok tt, r).
Proof.
  intros Hrec. unfold start_recording. now rewrite Hrec.
Qed.

Lemma start_recording_while_recording_witness :
  let r1 := snd (start_recording None default) in
  is_recording r1 = true /\
  start_recording (Some OSError) r1 = (Ok tt, r1).
Proof.
  split; [reflexivity|].
  apply (start_recording_while_recording (Some OSError)).
  reflexivity.
Defined.

(** A recorder that is not recording does open the device. *)
Lemma start_recording_fresh (r : StreamingAudioRecorder) :
  is_recording r = false ->
  is_recording (snd (start_recording None r)) = true /\
  stream (snd (start_recording None r)) <> None.
Proof.
  intros Hrec. unfold start_recording. rewrite Hrec. simpl.
  split; [reflexivity|discriminate].
Qed.

End RecorderFacts.

(* ================================================================== *)
(** * Properties of the realtime client *)

Lemma string_app_nil_r (s : string) : (s ++ "")%string = s.
Proof. induction s as [|c s IH]; simpl; [reflexivity|now rewrite IH]. Qed.

Lemma string_app_assoc (a b c : string) :
  ((a ++ b) ++ c)%string = (a ++ (b ++ c))%string.
Proof. induction a as [|x a IH]; simpl; [reflexivity|now rewrite IH]. Qed.

Ltac break_match :=
  match goal with
  | |- context [match ?x with _ => _ end] => destruct x eqn:?
  end.

Section ClientFacts.
Import Client.

Variable now : string.
Variable json_dumps : py_value -> string.
Variable b64decode : py_value -> result (list byte).

Local Abbreviation log_event := (Client.log_event now json_dumps).
Local Abbreviation handle_audio := (Client.handle_audio b64decode).
Local Abbreviation receive := (Client.receive now json_dumps b64decode).
Local Abbreviation send := (Client.send now json_dumps).
Local Abbreviation _message_handler :=
  (Client._message_handler now json_dumps b64decode).
Local Abbreviation receive_all := (Client.receive_all now json_dumps b64decode).

(** ** Logging *)

Lemma log_event_ok (event_type : string) (event : py_value) (w : World) :
  fst (log_event event_type event w) = Ok true.
Proof. unfold Client.log_event. now destruct (debug (client w)). Qed.

(** [log_event] touches [self.logs] and nothing else. *)
Lemma log_event_frame (event_type : string) (event : py_value) (w : World) :
  let w' := snd (log_event event_type event w) in
  transcript (client w') = transcript (client w) /\
  ws (client w') = ws (client w) /\
  _message_handler_task (client w') = _message_handler_task (client w) /\
  audio_buffer_cb (client w') = audio_buffer_cb (client w) /\
  debug (client w') = debug (client w) /\
  audio_buffer w' = audio_buffer w /\
  stdout w' = stdout w.
Proof.
  unfold Client.log_event. destruct (debug (client w)) eqn:E; simpl; auto 10.
Qed.

Lemma log_event_logs (event_type : string) (event : py_value) (w : World) :
  logs (client (snd (log_event event_type event w)))
    = if debug (client w)
      then logs (client w) ++ [(now, event_type, json_dumps event)]
      else logs (client w).
Proof. unfold Client.log_event. now destruct (debug (client w)). Qed.

(** ** Dispatch *)

Lemma contains_transcript_tag :
  contains "response.audio" "response.audio_transcript.delta" = true.
Proof. reflexivity. Qed.

(** [handle_audio] on the transcript: a transcript delta whose [delta]
    is a str is appended, anything else leaves the text alone. *)
Lemma handle_audio_transcript (event : py_value) (w : World) :
  transcript (client (snd (handle_audio event w)))
    = (transcript (client w) ++ transcript_delta event)%string.
Proof.
  unfold Client.handle_audio, transcript_delta, bind, pure, get, modify, ret.
  destruct event as [| | | |l|d]; simpl; try (now rewrite string_app_nil_r).
  destruct (dict_lookup d "type") as [[| | |s| |]|]; simpl;
    try (destruct (dict_lookup d "delta") as [[| | |t| |]|]; simpl;
         now rewrite string_app_nil_r).
  destruct (String.eqb_spec s "response.audio_transcript.delta") as [->|Hne];
    simpl.
  - destruct (dict_lookup d "delta") as [[| | |t| |]|]; simpl;
      try (now rewrite string_app_nil_r).
    reflexivity.
  - assert (Hnil : (transcript (client w) ++
                    match match dict_lookup d "delta" with
                          | Some v => v | None => PyNone end with
                    | PyStr _ => "" | _ => "" end)%string
                   = transcript (client w)).
    { destruct (dict_lookup d "delta") as [[| | |t| |]|];
        apply string_app_nil_r. }
    rewrite Hnil.
    destruct (s =? "response.audio.delta")%string; simpl; [|reflexivity].
    destruct (audio_buffer_cb (client w)); simpl; [|reflexivity].
    destruct (b64decode _); simpl; [|reflexivity].
    destruct (frombuffer _); reflexivity.
Qed.

Lemma transcript_delta_other_tag (d : list (string * py_value)) (ty : py_value) :
  dict_lookup d "type" = Some ty ->
  py_eq_str ty "response.audio_transcript.delta" = false ->
  transcript_delta (PyDict d) = "".
Proof.
  intros Hty Hne. unfold transcript_delta. simpl. rewrite Hty, Hne.
  now destruct (dict_lookup d "delta") as [[| | | | |]|].
Qed.

Lemma transcript_delta_no_tag (d : list (string * py_value)) :
  dict_lookup d "type" = None ->
  transcript_delta (PyDict d) = "".
Proof.
  intros Hty. unfold transcript_delta. simpl. rewrite Hty. simpl.
  now destruct (dict_lookup d "delta") as [[| | | | |]|].
Qed.

(** One call of [receive], whether it returns or raises, appends to the
    transcript exactly the delta the event carries. *)
Lemma receive_transcript (event : py_value) (w : World) :
  transcript (client (snd (receive event w)))
    = (transcript (client w) ++ transcript_delta event)%string.
Proof.
  unfold Client.receive, bind.
  pose proof (log_event_ok "server" event w) as Hok.
  destruct (log_event_frame "server" event w) as (Htr & _).
  destruct (log_event "server" event w) as [r w1]. simpl in Hok, Htr.
  subst r. rewrite <- Htr. clear Htr.
  unfold pure, ret.
  destruct event as [| | | |l|d]; simpl; try (now rewrite string_app_nil_r).
  destruct (dict_lookup d "type") as [ty|] eqn:Hty; simpl.
  2:{ now rewrite (transcript_delta_no_tag d Hty), string_app_nil_r. }
  destruct ty as [| | |s|l|d']; simpl;
    try (now rewrite (transcript_delta_other_tag d _ Hty eq_refl),
                     string_app_nil_r).
  - destruct (contains "response.audio" s) eqn:Hc.
    + pose proof (handle_audio_transcript (PyDict d) w1) as H.
      destruct (handle_audio (PyDict d) w1) as [[u|e] w2]; simpl in *; exact H.
    + simpl. rewrite (transcript_delta_other_tag d (PyStr s) Hty).
      * now rewrite string_app_nil_r.
      * simpl. destruct (String.eqb_spec s "response.audio_transcript.delta")
          as [->|]; [|reflexivity].
        rewrite contains_transcript_tag in Hc. discriminate.
  - pose proof (handle_audio_transcript (PyDict d) w1) as H.
    destruct (existsb _ l); simpl.
    + destruct (handle_audio (PyDict d) w1) as [[u|e] w2]; simpl in *; exact H.
    + now rewrite (transcript_delta_other_tag d _ Hty eq_refl), string_app_nil_r.
  - pose proof (handle_audio_transcript (PyDict d) w1) as H.
    destruct (existsb _ d'); simpl.
    + destruct (handle_audio (PyDict d) w1) as [[u|e] w2]; simpl in *; exact H.
    + now rewrite (transcript_delta_other_tag d _ Hty eq_refl), string_app_nil_r.
Qed.

(** A transcript delta event carries its [delta]; an event with another
    tag carries none. *)
Lemma transcript_delta_event (d : string) :
  transcript_delta (delta_event "response.audio_transcript.delta" (PyStr d)) = d.
Proof. reflexivity. Qed.

Lemma transcript_delta_other_event (ty : string) (payload : py_value) :
  ty <> "response.audio_transcript.delta" ->
  transcript_delta (delta_event ty payload) = "".
Proof.
  intros Hne. unfold transcript_delta, delta_event. simpl.
  destruct (String.eqb_spec ty "response.audio_transcript.delta");
    [contradiction|].
  now destruct payload.
Qed.

(** C4: after any sequence of events has been handed to [receive], the
    transcript is the transcript from before followed by the deltas of
    the [response.audio_transcript.delta] events of the sequence, in
    arrival order; events of other types, wherever they stand in the
    sequence and whatever [receive] does with them, add nothing. *)
Theorem transcript_accumulates (events : list py_value) (w : World) :
  transcript (client (receive_all events w))
    = (transcript (client w) ++ transcript_deltas events)%string.
Proof.
  revert w. induction events as [|ev rest IH]; intros w; simpl.
  - now rewrite string_app_nil_r.
  - rewrite IH, receive_transcript. apply string_app_assoc.
Qed.

(** An event whose type is a str other than the two recognised ones is
    logged and changes nothing else. *)
Lemma receive_other_str_type
    (d : list (string * py_value)) (ty : string) (w : World) :
  dict_lookup d "type" = Some (PyStr ty) ->
  ty <> "response.audio_transcript.delta" ->
  ty <> "response.audio.delta" ->
  receive (PyDict d) w = log_event "server" (PyDict d) w.
Proof.
  intros Hty Hn1 Hn2.
  unfold Client.receive, bind.
  pose proof (log_event_ok "server" (PyDict d) w) as Hok.
  destruct (log_event "server" (PyDict d) w) as [r w1]. simpl in Hok.
  subst r. unfold pure, ret. simpl. rewrite Hty. simpl.
  destruct (contains "response.audio" ty); [|reflexivity].
  unfold Client.handle_audio, bind, pure, get, ret. simpl. rewrite Hty. simpl.
  destruct (String.eqb_spec ty "response.audio_transcript.delta");
    [contradiction|].
  simpl.
  destruct (String.eqb_spec ty "response.audio.delta"); [contradiction|].
  reflexivity.
Qed.

(** [receive] never touches the connection handle, the task, the flags
    or standard output. *)
Lemma handle_audio_frame (event : py_value) (w : World) :
  let w' := snd (handle_audio event w) in
  ws (client w') = ws (client w) /\
  _message_handler_task (client w') = _message_handler_task (client w) /\
  logs (client w') = logs (client w) /\
  stdout w' = stdout w.
Proof.
  unfold Client.handle_audio, bind, pure, get, modify, ret. simpl.
  destruct (py_get event "type") as [ty|e]; simpl; auto.
  destruct (py_eq_str ty "response.audio_transcript.delta"); simpl.
  - destruct (py_get event "delta") as [dl|e]; simpl; auto.
    destruct (str_iadd (transcript (client w)) dl) as [t|e]; simpl; auto.
    repeat break_match; simpl; auto.
  - repeat break_match; simpl; auto.
Qed.

Lemma receive_frame (event : py_value) (w : World) :
  let w' := snd (receive event w) in
  ws (client w') = ws (client w) /\
  _message_handler_task (client w') = _message_handler_task (client w) /\
  stdout w' = stdout w.
Proof.
  unfold Client.receive, bind.
  pose proof (log_event_ok "server" event w) as Hok.
  destruct (log_event_frame "server" event w) as (_ & Hws & Htask & _ & _ & _ & Hout).
  destruct (log_event "server" event w) as [r w1]. simpl in Hok, Hws, Htask, Hout.
  subst r. rewrite <- Hws, <- Htask, <- Hout. clear Hws Htask Hout.
  unfold pure, ret.
  destruct (py_get event "type") as [ty|e]; simpl; auto.
  destruct (py_in "response.audio" ty) as [[|]|e]; simpl; auto.
  destruct (handle_audio_frame event w1) as (H1 & H2 & _ & H4).
  destruct (handle_audio event w1) as [[u|e] w2]; simpl in *; auto.
Qed.

(** C5 at its failing input: an event without a [type] field makes
    [receive] raise TypeError ([event.get("type")] is None and [in]
    needs a container), and in the receive loop that ends the session:
    the handler reports the error and disconnects. *)
Theorem receive_without_type_raises (w : World) :
  fst (receive (PyDict []) w) = Raise TypeError /\
  (let r := _message_handler
              [RecvMessage "{}" (Ok (PyDict []))] Samples.connected in
   fst r = Crashed /\
   is_connected (client (snd r)) = false /\
   stdout (snd r) = [MessageHandlerError TypeError]).
Proof.
  split.
  - unfold Client.receive, bind.
    pose proof (log_event_ok "server" (PyDict []) w) as Hok.
    destruct (log_event "server" (PyDict []) w) as [r w1]. simpl in Hok.
    now subst r.
  - cbv. auto.
Qed.

(** ** Connection guards *)

(** C3: [send] on a client that is not connected raises the
    not-connected error before anything else happens, so nothing is
    logged and no frame is scheduled; [connect] on a client that is
    connected raises the already-connected error and opens nothing. *)
Theorem state_guard
    (w : World) (event_name : string) (data : py_value)
    (model : string) (handshake : option exn) :
  (is_connected (client w) = false ->
   send event_name data w = (Raise NotConnected, w)) /\
  (is_connected (client w) = true ->
   connect model handshake w = (Raise AlreadyConnected, w)).
Proof.
  split; intros Hc.
  - unfold Client.send, bind, get, raise. simpl. now rewrite Hc.
  - unfold connect. now rewrite Hc.
Qed.

(** ** Disconnect *)

Lemma disconnect_spec (w : World) :
  disconnect w
    = (Ok true,
       {| client := set_task None (set_ws None (client w));
          audio_buffer := audio_buffer w;
          stdout := stdout w |}).
Proof.
  unfold disconnect, bind, modify, ret, with_client. simpl.
  destruct w as [c b o]. destruct c as [dbg lg tr s t cb]. simpl.
  now destruct s.
Qed.

(** C7: [disconnect] returns normally from every state, leaves no
    connection handle and no receive task, and called again returns
    normally again and changes nothing. *)
Theorem disconnect_idempotent (w : World) :
  let r1 := disconnect w in
  let r2 := disconnect (snd r1) in
  fst r1 = Ok true /\
  fst r2 = Ok true /\
  ws (client (snd r2)) = None /\
  _message_handler_task (client (snd r2)) = None /\
  is_connected (client (snd r2)) = false /\
  snd r2 = snd r1.
Proof.
  cbv zeta. rewrite !disconnect_spec. simpl.
  repeat split.
Qed.

(** ** Payload check of [send] *)

(** A payload that is truthy and not a dict is refused, and nothing is
    logged or scheduled. *)
Lemma send_truthy_non_dict_rejected
    (w : World) (event_name : string) (data : py_value) :
  is_connected (client w) = true ->
  truthy data = true ->
  is_dict data = false ->
  send event_name data w = (Raise InvalidPayload, w).
Proof.
  intros Hc Ht Hd. unfold Client.send, bind, get, raise. simpl.
  rewrite Hc, Ht. simpl.
  now destruct data.
Qed.

(** A falsy payload of any type is replaced by an empty dict, exactly
    as an absent one is. *)
Lemma send_falsy_data_as_absent
    (w : World) (event_name : string) (data : py_value) :
  truthy data = false ->
  send event_name data w = send event_name PyNone w.
Proof.
  intros Ht. unfold Client.send, bind, get. simpl.
  now rewrite Ht.
Qed.

(** C8 at its failing input: [send("response.create", [])] on a
    connected client is accepted.  The empty list is neither absent nor
    a dict, yet [data or {}] turns it into an empty dict before the
    [isinstance] check; the event is logged and its frame scheduled. *)
Theorem send_empty_list_accepted :
  let event := PyDict [("type", PyStr "response.create")] in
  let r := send "response.create" (PyList []) Samples.connected in
  is_connected (client Samples.connected) = true /\
  is_dict (PyList []) = false /\
  fst r = Ok true /\
  logs (client (snd r)) = [(now, "client", json_dumps event)] /\
  option_map outbox (ws (client (snd r))) = Some [json_dumps event].
Proof.
  cbv. auto.
Qed.

(** ** The receive loop *)

(** The loop reads its input from left to right: while it is still
    polling after a prefix, it goes on with the rest. *)
Lemma _message_handler_app (pre post : list incoming) :
  forall w,
    _message_handler (pre ++ post) w
      = match _message_handler pre w with
        | (Running, w1) => _message_handler post w1
        | other => other
        end.
Proof.
  induction pre as [|i pre IH]; intros w; simpl.
  - reflexivity.
  - destruct (ws (client w)); [|apply IH].
    destruct (handler_body now json_dumps b64decode i w) as [[b|e] w'].
    + apply IH.
    + destruct e; try reflexivity; apply IH.
Qed.

(** C4 seen from the loop: as long as the loop is still polling, every
    decoded message went through [receive], and the transcript has grown
    by the deltas of the transcript events among them, in arrival order. *)
Lemma _message_handler_transcript (script : list incoming) :
  forall w,
    ws (client w) <> None ->
    fst (_message_handler script w) = Running ->
    transcript (client (snd (_message_handler script w)))
      = (transcript (client w) ++ transcript_deltas (decoded script))%string.
Proof.
  induction script as [|i rest IH]; intros w Hws Hrun; simpl in *.
  - now rewrite string_app_nil_r.
  - destruct (ws (client w)) as [s|] eqn:E; [|contradiction].
    destruct i as [| |raw [ev|e]].
    + apply IH; [now rewrite E|exact Hrun].
    + discriminate.
    + unfold handler_body, bind, recv, ret, pure in *. simpl in *.
      pose proof (receive_transcript ev w) as Htr.
      destruct (receive_frame ev w) as (Hw & _).
      destruct (receive ev w) as [[b|e] w']; simpl in *.
      * rewrite IH; [|now rewrite Hw, E|exact Hrun].
        rewrite Htr. apply string_app_assoc.
      * destruct e; simpl in Hrun; try discriminate.
        rewrite IH; [|now rewrite Hw, E|exact Hrun].
        rewrite Htr. apply string_app_assoc.
    + unfold handler_body, bind, recv, ret, pure in *. simpl in *.
      destruct e; simpl in Hrun; try discriminate.
      apply IH; [now rewrite E|exact Hrun].
Qed.

Lemma _message_handler_decode_error (raw : string) (rest : list incoming)
    (w : World) :
  ws (client w) <> None ->
  _message_handler (RecvMessage raw (Raise JSONDecodeError) :: rest) w
    = (Crashed,
       {| client := set_task None (set_ws None (client w));
          audio_buffer := audio_buffer w;
          stdout := stdout w ++ [MessageHandlerError JSONDecodeError] |}).
Proof.
  intros Hws.
  destruct w as [[dbg lg tr [s|] t cb] b o]; simpl in Hws;
    [reflexivity|contradiction].
Qed.

(** C2 (amended): when the loop, still polling after what came before,
    is handed a message that is not JSON, it does not call [receive]
    (transcript, log and playback buffer stay as they were), reports the
    error on standard output, and then ends: the client is disconnected,
    the handle and the task are cleared, and whatever the server sends
    afterwards is not read. *)
Theorem decode_error_ends_session
    (pre rest : list incoming) (raw : string) (w w1 : World) :
  _message_handler pre w = (Running, w1) ->
  ws (client w1) <> None ->
  let r := _message_handler
             (pre ++ RecvMessage raw (Raise JSONDecodeError) :: rest) w in
  fst r = Crashed /\
  stdout (snd r) = stdout w1 ++ [MessageHandlerError JSONDecodeError] /\
  ws (client (snd r)) = None /\
  _message_handler_task (client (snd r)) = None /\
  is_connected (client (snd r)) = false /\
  transcript (client (snd r)) = transcript (client w1) /\
  logs (client (snd r)) = logs (client w1) /\
  audio_buffer (snd r) = audio_buffer w1.
Proof.
  intros Hpre Hws r. subst r.
  rewrite _message_handler_app, Hpre.
  rewrite (_message_handler_decode_error raw rest w1 Hws). simpl.
  repeat split.
Qed.

End ClientFacts.

(* ================================================================== *)
(** * The properties on concrete runs *)

Section Runs.
Import Client.

Local Abbreviation run_handler :=
  (_message_handler Samples.now Samples.json_dumps Samples.b64decode).
Local Abbreviation run_send := (send Samples.now Samples.json_dumps).

(** Scenario B, in small: an audio delta puts its decoded samples at
    the end of the playback buffer. *)
Example audio_delta_reaches_buffer :
  audio_buffer (snd (run_handler [Samples.audio_message "AAEAAQ=="]
                       Samples.connected))
    = [256; 256].
Proof. reflexivity. Qed.

(** C2, as the design document words it, fails: a message that is not
    JSON ends the loop and closes the connection, and the transcript
    delta that follows it is never read. *)
Lemma decode_error_continues_counterexample :
  let r := run_handler [Samples.malformed; Samples.transcript_message "hello"]
             Samples.connected in
  is_connected (client Samples.connected) = true /\
  ~ (fst r = Running /\ is_connected (client (snd r)) = true) /\
  fst r = Crashed /\
  ws (client (snd r)) = None /\
  transcript (client (snd r)) = "".
Proof.
  cbv zeta. split; [reflexivity|]. split.
  - intros [H _]. vm_compute in H. discriminate.
  - vm_compute. auto.
Qed.

Lemma decode_error_ends_session_witness :
  let pre := [Samples.transcript_message "hi"; RecvTimeout] in
  let w1 := snd (run_handler pre Samples.connected) in
  let r := run_handler (pre ++ [Samples.malformed;
                                Samples.transcript_message "lost"])
             Samples.connected in
  run_handler pre Samples.connected = (Running, w1) /\
  ws (client w1) <> None /\
  fst r = Crashed /\
  stdout (snd r) = stdout w1 ++ [MessageHandlerError JSONDecodeError] /\
  ws (client (snd r)) = None /\
  _message_handler_task (client (snd r)) = None /\
  is_connected (client (snd r)) = false /\
  transcript (client (snd r)) = transcript (client w1) /\
  logs (client (snd r)) = logs (client w1) /\
  audio_buffer (snd r) = audio_buffer w1.
Proof.
  intros pre w1 r.
  assert (Hpre : run_handler pre Samples.connected = (Running, w1))
    by reflexivity.
  assert (Hws : ws (client w1) <> None) by (simpl; discriminate).
  split; [exact Hpre|]. split; [exact Hws|].
  exact (decode_error_ends_session Samples.now Samples.json_dumps
           Samples.b64decode pre [Samples.transcript_message "lost"]
           "{oops" Samples.connected w1 Hpre Hws).
Defined.

(** Scenario C with its counterpart for [connect]. *)
Lemma state_guard_witness :
  is_connected (client Samples.fresh) = false /\
  run_send "input_audio_buffer.commit" PyNone Samples.fresh
    = (Raise NotConnected, Samples.fresh) /\
  is_connected (client Samples.connected) = true /\
  connect "gpt-4o-realtime-preview-2024-10-01" None Samples.connected
    = (Raise AlreadyConnected, Samples.connected).
Proof.
  assert (Hf : is_connected (client Samples.fresh) = false) by reflexivity.
  assert (Hc : is_connected (client Samples.connected) = true) by reflexivity.
  split; [exact Hf|]. split.
  - exact (proj1 (state_guard Samples.now Samples.json_dumps Samples.fresh
                    "input_audio_buffer.commit" PyNone "" None) Hf).
  - split; [exact Hc|].
    exact (proj2 (state_guard Samples.now Samples.json_dumps Samples.connected
                    "" PyNone "gpt-4o-realtime-preview-2024-10-01" None) Hc).
Defined.

(** Scenario A: three captured blocks of 2000 samples come back from
    three [get_audio_chunk] calls in the order captured, the fourth call
    returns [None]; the same when the recorder was stopped in between. *)
Lemma get_audio_chunk_fifo_witness :
  let r := snd (Recorder.start_recording None Recorder.default) in
  let blocks := [Samples.block 1 2000; Samples.block 2 2000;
                 Samples.block 3 2000] in
  let r' := Recorder.capture blocks r in
  fst (Recorder.get_chunks 4 r')
    = [Ok (Some (repeat 1 2000)); Ok (Some (repeat 2 2000));
       Ok (Some (repeat 3 2000)); Ok None] /\
  fst (Recorder.get_chunks 4 (snd (Recorder.stop_recording r')))
    = [Ok (Some (repeat 1 2000)); Ok (Some (repeat 2 2000));
       Ok (Some (repeat 3 2000)); Ok None].
Proof.
  intros r blocks r'.
  assert (Hf : Recorder.frames_of blocks
               = [repeat 1 2000; repeat 2 2000; repeat 3 2000])
    by (vm_compute; reflexivity).
  destruct (get_audio_chunk_fifo r blocks 1) as (H1 & H2 & _).
  change (Recorder.audio_queue r) with (@nil (list int16)) in H1, H2.
  rewrite app_nil_l, Hf in H1, H2.
  split; [exact H1|exact H2].
Defined.

End Runs.

(* ================================================================== *)
(** * Further properties of the playback buffer *)

Section PlaybackRuns.
Import Playback Usage.

Lemma tobytes_app (a b : list int16) :
  tobytes (a ++ b) = tobytes a ++ tobytes b.
Proof. apply flat_map_app. Qed.

(** Whatever is buffered, a callback asked for [frame_count] samples
    returns exactly [2 * frame_count] bytes: a full block of audio or a
    full block of silence, never a short one. *)
Theorem callback_data_length (frame_count : nat) (buf : audio_buffer) :
  length (fst (sd_audio_cb frame_count buf)) = (2 * frame_count)%nat /\
  length (fst (py_audio_callback frame_count buf)) = (2 * frame_count)%nat.
Proof.
  change (py_audio_callback frame_count buf) with (sd_audio_cb frame_count buf).
  assert (H : length (fst (sd_audio_cb frame_count buf)) = (2 * frame_count)%nat).
  { unfold sd_audio_cb, channels.
    destruct (Nat.leb_spec frame_count (length buf)); simpl;
      rewrite tobytes_length.
    - rewrite length_firstn. lia.
    - rewrite zeros_length. lia. }
  split; exact H.
Qed.

Lemma sd_audio_cb_fifo_witness :
  (2 <= length [7; -3; 4]%Z)%nat /\
  exists served,
    fst (sd_audio_cb 2 [7; -3; 4]) = tobytes served /\
    length served = 2%nat /\
    served ++ snd (sd_audio_cb 2 [7; -3; 4]) = [7; -3; 4].
Proof.
  split; [simpl; lia|].
  apply (sd_audio_cb_fifo 2 [7; -3; 4]). simpl; lia.
Defined.

(** Two requests in a row, both covered by the buffer, hand out the same
    audio and leave the same buffer as one request for the sum. *)
Theorem pulls_compose (n m : nat) (buf : audio_buffer) :
  (n + m <= length buf)%nat ->
  let first := sd_audio_cb n buf in
  let second := sd_audio_cb m (snd first) in
  fst first ++ fst second = fst (sd_audio_cb (n + m) buf) /\
  snd second = snd (sd_audio_cb (n + m) buf).
Proof.
  intros Hle first second. subst first second.
  rewrite (sd_audio_cb_enough n buf) by lia. simpl.
  rewrite (sd_audio_cb_enough m (skipn n buf))
    by (rewrite length_skipn; lia).
  rewrite (sd_audio_cb_enough (n + m) buf) by lia. simpl.
  split.
  - rewrite <- tobytes_app. f_equal.
    rewrite <- (firstn_skipn n buf) at 3.
    rewrite firstn_app, length_firstn.
    replace (Nat.min n (length buf)) with n by lia.
    replace (n + m - n)%nat with m by lia.
    rewrite firstn_firstn.
    replace (Nat.min (n + m) n) with n by lia.
    reflexivity.
  - rewrite skipn_skipn. f_equal. lia.
Qed.

Lemma pulls_compose_witness :
  (1 + 2 <= length [7; -3; 4; 9]%Z)%nat /\
  fst (sd_audio_cb 1 [7; -3; 4; 9])
    ++ fst (sd_audio_cb 2 (snd (sd_audio_cb 1 [7; -3; 4; 9])))
    = fst (sd_audio_cb (1 + 2) [7; -3; 4; 9]) /\
  snd (sd_audio_cb 2 (snd (sd_audio_cb 1 [7; -3; 4; 9])))
    = snd (sd_audio_cb (1 + 2) [7; -3; 4; 9]).
Proof.
  split; [simpl; lia|].
  apply (pulls_compose 1 2 [7; -3; 4; 9]). simpl; lia.
Defined.

(** Over any interleaving of arriving chunks and device requests, the
    audio handed to the device followed by what is still buffered is
    exactly what was buffered at the start followed by the chunks that
    arrived: no sample is lost, duplicated or reordered, and an underrun
    costs nothing but silence. *)
Theorem play_conserves_samples (events : list playback_event) :
  forall buf,
    fst (play events buf) ++ tobytes (snd (play events buf))
      = tobytes (buf ++ arrived events).
Proof.
  induction events as [|[chunk|n] rest IH]; intros buf; simpl.
  - now rewrite app_nil_r.
  - rewrite IH. unfold audio_buffer_cb. now rewrite app_assoc.
  - specialize (IH (snd (sd_audio_cb n buf))).
    unfold sd_audio_cb in *.
    destruct (Nat.leb_spec n (length buf)) as [Hle|Hlt]; simpl in *;
      destruct (play rest _) as [out final]; simpl in *.
    + rewrite <- app_assoc, IH, <- tobytes_app. f_equal.
      now rewrite app_assoc, firstn_skipn.
    + exact IH.
Qed.

(** Chunks appended one after the other are played back joined in the
    order of the appends, behind what was already waiting, and a request
    for all of it empties the buffer. *)
Theorem appended_chunks_played_in_order (buf a b : list int16) :
  let filled := audio_buffer_cb b (audio_buffer_cb a buf) in
  sd_audio_cb (length filled) filled = (tobytes (buf ++ a ++ b), []).
Proof.
  intros filled. subst filled. unfold audio_buffer_cb.
  rewrite sd_audio_cb_enough by lia.
  rewrite firstn_all, skipn_all. now rewrite <- app_assoc.
Qed.

End PlaybackRuns.

(* ================================================================== *)
(** * int16 arrays and bytes: round trips *)

Section Int16Bytes.
Import Usage.

Lemma Z_of_byte_range (b : byte) : 0 <= Z_of_byte b < 256.
Proof.
  unfold Z_of_byte. pose proof (Byte.to_N_bounded b). lia.
Qed.

Lemma Z_of_byte_of_Z (z : Z) : Z_of_byte (byte_of_Z z) = z mod 256.
Proof.
  unfold Z_of_byte, byte_of_Z.
  pose proof (Z.mod_pos_bound z 256 ltac:(lia)) as Hr.
  destruct (Byte.of_N (Z.to_N (z mod 256))) as [b|] eqn:E.
  - apply Byte.to_of_N in E. rewrite E. lia.
  - apply Byte.of_N_None_iff in E. lia.
Qed.

Lemma byte_of_Z_of_byte (b : byte) : byte_of_Z (Z_of_byte b) = b.
Proof.
  unfold byte_of_Z. pose proof (Z_of_byte_range b) as Hr.
  rewrite Z.mod_small by lia. unfold Z_of_byte.
  rewrite N2Z.id. now rewrite Byte.of_to_N.
Qed.

Lemma sample_bytes_decode (x : int16) :
  in_int16 x ->
  match sample_bytes x with
  | [lo; hi] => sample_of_bytes lo hi = x
  | _ => False
  end.
Proof.
  unfold in_int16. intros Hx. unfold sample_bytes, sample_of_bytes. cbv zeta.
  rewrite !Z_of_byte_of_Z.
  change 255 with (Z.ones 8). rewrite Z.land_ones by lia.
  rewrite Z.shiftr_div_pow2 by lia.
  change (2 ^ 8) with 256.
  pose proof (Z.mod_pos_bound x 65536 ltac:(lia)) as Hu.
  set (u := x mod 65536) in *.
  rewrite Z.mod_mod by lia.
  rewrite (Z.mod_small (u / 256)) by (split; [apply Z.div_pos|apply Z.div_lt_upper_bound]; lia).
  replace (u mod 256 + 256 * (u / 256)) with u
    by (rewrite (Z.div_mod u 256) at 1; lia).
  assert (Hcase : (0 <= x /\ u = x) \/ (x < 0 /\ u = x + 65536)).
  { subst u. destruct (Z_lt_le_dec x 0).
    - right. split; [lia|].
      rewrite <- (Z.mod_add x 1 65536) by lia.
      rewrite Z.mod_small; lia.
    - left. split; [lia|]. rewrite Z.mod_small; lia. }
  destruct (Z.leb_spec 32768 u); lia.
Qed.

Lemma pairs_to_samples_tobytes (a : list int16) :
  Forall in_int16 a -> pairs_to_samples (tobytes a) = Some a.
Proof.
  induction 1 as [|x a Hx _ IH]; [reflexivity|].
  pose proof (sample_bytes_decode x Hx) as Hd.
  unfold tobytes in *. cbn [flat_map].
  destruct (sample_bytes x) as [|lo [|hi [|]]]; try contradiction.
  cbn [app pairs_to_samples]. now rewrite IH, Hd.
Qed.

Lemma bytes_encode (lo hi : byte) :
  sample_bytes (sample_of_bytes lo hi) = [lo; hi].
Proof.
  unfold sample_bytes, sample_of_bytes. cbv zeta.
  pose proof (Z_of_byte_range lo) as Hlo.
  pose proof (Z_of_byte_range hi) as Hhi.
  set (u := Z_of_byte lo + 256 * Z_of_byte hi).
  assert (Hu : forall v : Z, v = u \/ v = u - 65536 -> v mod 65536 = u).
  { intros v [->| ->].
    - apply Z.mod_small; subst u; lia.
    - rewrite <- (Z.mod_add (u - 65536) 1 65536) by lia.
      rewrite Z.mod_small; subst u; lia. }
  destruct (32768 <=? u); [rewrite (Hu (u - 65536)) by auto
                          |rewrite (Hu u) by auto].
  all: change 255 with (Z.ones 8); rewrite Z.land_ones by lia;
    rewrite Z.shiftr_div_pow2 by lia; change (2 ^ 8) with 256.
  all: assert (Hm : u mod 256 = Z_of_byte lo)
    by (symmetry; apply (Z.mod_unique_pos u 256 (Z_of_byte hi)); subst u; lia).
  all: assert (Hd : u / 256 = Z_of_byte hi)
    by (symmetry; apply (Z.div_unique_pos u 256 (Z_of_byte hi) (Z_of_byte lo));
        subst u; lia).
  all: now rewrite Hm, Hd, !byte_of_Z_of_byte.
Qed.

(** The bytes that [frombuffer] accepted are the bytes of the array it
    returned: what the recorder queues and [tobytes] later serialises for
    the server is byte for byte what the device delivered. *)
Theorem tobytes_frombuffer (bs : list byte) (a : list int16) :
  frombuffer bs = Ok a -> tobytes a = bs.
Proof.
  unfold frombuffer.
  destruct (pairs_to_samples bs) as [xs|] eqn:E; [|discriminate].
  intros H. injection H as <-.
  revert xs E.
  induction bs as [bs IH] using (well_founded_induction
                                   (Wf_nat.well_founded_ltof _ (@length byte))).
  intros xs E. destruct bs as [|lo [|hi rest]]; simpl in E.
  - now injection E as <-.
  - discriminate.
  - destruct (pairs_to_samples rest) as [ys|] eqn:Er; [|discriminate].
    injection E as <-.
    unfold tobytes. cbn [flat_map]. rewrite bytes_encode. cbn [app].
    do 2 f_equal. apply (IH rest); [|exact Er].
    unfold Wf_nat.ltof. simpl. lia.
Qed.

Lemma tobytes_frombuffer_witness :
  frombuffer [x00; x01; xfb; xff] = Ok [256; -5] /\
  tobytes [256; -5] = [x00; x01; xfb; xff].
Proof.
  assert (H : frombuffer [x00; x01; xfb; xff] = Ok [256; -5]) by reflexivity.
  split; [exact H|].
  exact (tobytes_frombuffer [x00; x01; xfb; xff] _ H).
Defined.

(** A block that is the serialisation of [int16] samples is decoded by
    the capture callback to exactly those samples and put last on the
    queue. *)
Theorem callback_decodes_int16_block
    (frame : list int16) (r : Recorder.StreamingAudioRecorder) :
  Forall in_int16 frame ->
  frombuffer (tobytes frame) = Ok frame /\
  Recorder.callback (tobytes frame) r
    = (Ok tt, Recorder.with_queue (Recorder.audio_queue r ++ [frame]) r).
Proof.
  intros Hr.
  assert (H : frombuffer (tobytes frame) = Ok frame)
    by (unfold frombuffer; now rewrite pairs_to_samples_tobytes).
  split; [exact H|].
  unfold Recorder.callback, bind, modify. now rewrite H.
Qed.

Lemma callback_decodes_int16_block_witness :
  Forall in_int16 [-32768; -1; 0; 32767] /\
  frombuffer (tobytes [-32768; -1; 0; 32767]) = Ok [-32768; -1; 0; 32767] /\
  Recorder.callback (tobytes [-32768; -1; 0; 32767]) Recorder.default
    = (Ok tt,
       Recorder.with_queue
         (Recorder.audio_queue Recorder.default ++ [[-32768; -1; 0; 32767]])
         Recorder.default).
Proof.
  assert (H : Forall in_int16 [-32768; -1; 0; 32767])
    by (repeat constructor; unfold in_int16; lia).
  split; [exact H|].
  exact (callback_decodes_int16_block _ Recorder.default H).
Defined.

End Int16Bytes.

(* ================================================================== *)
(** * Further properties of the capture session *)

Section RecorderRuns.
Import Recorder Usage.

Lemma pairs_to_samples_parity (bs : list byte) :
  match pairs_to_samples bs with
  | Some xs => Nat.even (length bs) = true /\ length bs = (2 * length xs)%nat
  | None => Nat.even (length bs) = false
  end.
Proof.
  induction bs as [bs IH] using (well_founded_induction
                                   (Wf_nat.well_founded_ltof _ (@length byte))).
  destruct bs as [|lo [|hi rest]]; [simpl; auto..|].
  assert (Hlt : Wf_nat.ltof _ (@length byte) rest (lo :: hi :: rest))
    by (unfold Wf_nat.ltof; simpl; lia).
  specialize (IH rest Hlt).
  cbn [pairs_to_samples].
  destruct (pairs_to_samples rest) as [xs|]; cbn [length];
    rewrite Nat.even_succ_succ.
  - destruct IH as [He Hl]. split; [exact He|]. simpl in *. lia.
  - exact IH.
Qed.

(** The capture callback accepts exactly the blocks of even length: such
    a block becomes one frame of half as many samples at the end of the
    queue; a block of odd length raises and leaves the recorder as it
    was. *)
Theorem callback_block_parity
    (in_data : list byte) (r : StreamingAudioRecorder) :
  match frombuffer in_data with
  | Ok frame =>
      Nat.even (length in_data) = true /\
      (2 * length frame)%nat = length in_data /\
      callback in_data r = (Ok tt, with_queue (audio_queue r ++ [frame]) r)
  | Raise e =>
      Nat.even (length in_data) = false /\
      callback in_data r = (Raise e, r)
  end.
Proof.
  pose proof (pairs_to_samples_parity in_data) as Hp.
  unfold callback, bind, modify, frombuffer.
  destruct (pairs_to_samples in_data) as [xs|].
  - destruct Hp as [He Hl]. repeat split; auto.
  - split; [exact Hp|reflexivity].
Qed.

Lemma act_keeps_agreement (x : recorder_action) (r : StreamingAudioRecorder) :
  flag_matches_stream r -> flag_matches_stream (act x r).
Proof.
  unfold flag_matches_stream. intros Hr.
  destruct x as [device| |in_data|]; simpl.
  - unfold start_recording.
    destruct (is_recording r) eqn:E; simpl; [now rewrite E|].
    destruct device; simpl; [now rewrite E|].
    split; [discriminate|reflexivity].
  - unfold stop_recording.
    destruct (is_recording r) eqn:E, (stream r) eqn:S; simpl;
      rewrite ?E, ?S; try exact Hr.
    split; [discriminate|intros H; now elim H].
  - unfold callback, bind, modify.
    destruct (frombuffer in_data); simpl; exact Hr.
  - unfold get_audio_chunk.
    destruct (audio_queue r); simpl; exact Hr.
Qed.

(** From construction on, whatever is done to a recorder and whatever
    the device does, [is_recording] is set exactly when a stream is
    held. *)
Theorem recorder_flag_invariant
    (rate chans fpb : nat) (xs : list recorder_action) :
  flag_matches_stream (acts xs (init rate chans fpb)).
Proof.
  assert (H0 : flag_matches_stream (init rate chans fpb)).
  { unfold flag_matches_stream. simpl. split; [discriminate|intros H; now elim H]. }
  revert H0. generalize (init rate chans fpb).
  unfold acts. induction xs as [|x xs IH]; intros r Hr; simpl; [exact Hr|].
  apply IH, act_keeps_agreement, Hr.
Qed.

(** Starting a recorder that is idle and then stopping it gives back the
    recorder as it was: the stream is released and the queue and the
    settings are untouched. *)
Theorem start_stop_roundtrip (r : StreamingAudioRecorder) :
  is_recording r = false ->
  stream r = None ->
  snd (stop_recording (snd (start_recording None r))) = r.
Proof.
  intros Hrec Hst. unfold start_recording, stop_recording. rewrite Hrec. simpl.
  destruct r as [rate chans fpb q rec st]. simpl in *. now subst.
Qed.

Lemma start_stop_roundtrip_witness :
  is_recording default = false /\
  stream default = None /\
  snd (stop_recording (snd (start_recording None default))) = default.
Proof.
  split; [reflexivity|]. split; [reflexivity|].
  apply (start_stop_roundtrip default); reflexivity.
Defined.

Lemma act_queue (x : recorder_action) (r1 r2 : StreamingAudioRecorder) :
  audio_queue r1 = audio_queue r2 ->
  audio_queue (act x r1)
    = if touches_queue x then audio_queue (act x r2) else audio_queue r2.
Proof.
  intros Hq. destruct x as [device| |in_data|]; simpl.
  - unfold start_recording.
    destruct (is_recording r1); [exact Hq|]. destruct device; exact Hq.
  - unfold stop_recording.
    destruct (is_recording r1), (stream r1); exact Hq.
  - now rewrite !callback_queue, Hq.
  - unfold get_audio_chunk. rewrite Hq.
    destruct (audio_queue r2) eqn:E; simpl; [congruence|reflexivity].
Qed.

(** The queue is independent of recording: starting and stopping, in any
    number and with any outcome, never add, drop or reorder a queued
    frame.  The queue after a run is the queue after the captured blocks
    and the [get_audio_chunk] calls of that run alone. *)
Theorem start_stop_leave_queue
    (xs : list recorder_action) (r : StreamingAudioRecorder) :
  audio_queue (acts xs r) = audio_queue (acts (filter touches_queue xs) r).
Proof.
  assert (H : forall r1 r2, audio_queue r1 = audio_queue r2 ->
              audio_queue (acts xs r1)
                = audio_queue (acts (filter touches_queue xs) r2)).
  { unfold acts. induction xs as [|x xs IH]; intros r1 r2 Hq; simpl; [exact Hq|].
    pose proof (act_queue x r1 r2 Hq) as Hx.
    destruct (touches_queue x); simpl; apply IH; exact Hx. }
  apply H. reflexivity.
Qed.

End RecorderRuns.

(* ================================================================== *)
(** * Further properties of the realtime client *)

Section ClientRuns.
Import Client Usage.

Variable now : string.
Variable json_dumps : py_value -> string.
Variable b64decode : py_value -> result (list byte).

Local Abbreviation log_event := (Client.log_event now json_dumps).
Local Abbreviation handle_audio := (Client.handle_audio b64decode).
Local Abbreviation receive := (Client.receive now json_dumps b64decode).
Local Abbreviation send := (Client.send now json_dumps).
Local Abbreviation send_all := (Usage.send_all now json_dumps).
Local Abbreviation _message_handler :=
  (Client._message_handler now json_dumps b64decode).
Local Abbreviation receive_all := (Client.receive_all now json_dumps b64decode).

(** ** Sending *)

(** What an accepted [send] does, step by step. *)
Lemma send_accepted_steps
    (w : World) (event_name : string) (data : py_value) :
  is_connected (client w) = true ->
  accepted data = true ->
  send event_name data w
    = (Ok true,
       snd (schedule_send (json_dumps (event_of event_name data))
              (snd (log_event "client" (event_of event_name data) w)))).
Proof.
  intros Hc Ha. unfold Client.send, event_of, bind, get, ret. simpl.
  rewrite Hc. simpl.
  assert (Hd : exists d, (if truthy data then data else PyDict []) = PyDict d).
  { unfold accepted in Ha. destruct (truthy data); [|now exists []].
    destruct data; try discriminate. now eexists. }
  destruct Hd as [d Hd]. rewrite Hd.
  pose proof (log_event_ok now json_dumps "client"
                (PyDict (dict_merge [("type", PyStr event_name)] d)) w) as Hok.
  destruct (log_event_frame now json_dumps "client"
              (PyDict (dict_merge [("type", PyStr event_name)] d)) w)
    as (_ & Hws & _).
  destruct (log_event "client" _ w) as [r w1]. simpl in *. subst r.
  unfold is_connected in Hc. rewrite <- Hws in Hc.
  unfold schedule_send. destruct (ws (client w1)); [reflexivity|discriminate].
Qed.

Lemma schedule_send_outbox (frame : string) (w : World) :
  ws (client w) <> None ->
  Usage.outbox (snd (schedule_send frame w)) = Usage.outbox w ++ [frame] /\
  is_connected (client (snd (schedule_send frame w))) = is_connected (client w) /\
  logs (client (snd (schedule_send frame w))) = logs (client w) /\
  transcript (client (snd (schedule_send frame w))) = transcript (client w) /\
  debug (client (snd (schedule_send frame w))) = debug (client w) /\
  audio_buffer (snd (schedule_send frame w)) = audio_buffer w /\
  stdout (snd (schedule_send frame w)) = stdout w.
Proof.
  intros Hws. unfold schedule_send, Usage.outbox, is_connected.
  destruct (ws (client w)) as [s|]; [|contradiction]. simpl. auto 10.
Qed.

Lemma send_accepted_outbox
    (w : World) (event_name : string) (data : py_value) :
  is_connected (client w) = true ->
  accepted data = true ->
  fst (send event_name data w) = Ok true /\
  Usage.outbox (snd (send event_name data w))
    = Usage.outbox w ++ [json_dumps (event_of event_name data)] /\
  is_connected (client (snd (send event_name data w))) = true.
Proof.
  intros Hc Ha.
  rewrite (send_accepted_steps w event_name data Hc Ha). simpl.
  set (ev := event_of event_name data).
  destruct (log_event_frame now json_dumps "client" ev w) as (_ & Hws & _).
  set (w1 := snd (log_event "client" ev w)) in *. simpl in Hws.
  assert (Hws1 : ws (client w1) <> None).
  { rewrite Hws. unfold is_connected in Hc.
    destruct (ws (client w)); discriminate. }
  destruct (schedule_send_outbox (json_dumps ev) w1 Hws1) as (Ho & Hcon & _).
  rewrite Ho, Hcon. unfold Usage.outbox, is_connected in *. rewrite Hws.
  auto.
Qed.

(** An accepted [send] on a connected client returns [True], puts
    exactly one frame, the serialised event, behind the frames already
    handed to the connection, records it in the log when [debug] is set,
    and changes nothing else; the client stays connected. *)
Theorem send_accepted_effect
    (w : World) (event_name : string) (data : py_value) :
  is_connected (client w) = true ->
  accepted data = true ->
  let frame := json_dumps (event_of event_name data) in
  let w' := snd (send event_name data w) in
  fst (send event_name data w) = Ok true /\
  Usage.outbox w' = Usage.outbox w ++ [frame] /\
  logs (client w')
    = (if debug (client w) then logs (client w) ++ [(now, "client", frame)]
       else logs (client w)) /\
  is_connected (client w') = true /\
  transcript (client w') = transcript (client w) /\
  audio_buffer w' = audio_buffer w /\
  stdout w' = stdout w.
Proof.
  intros Hc Ha frame w'. subst frame w'.
  rewrite (send_accepted_steps w event_name data Hc Ha). simpl.
  set (ev := event_of event_name data).
  destruct (log_event_frame now json_dumps "client" ev w)
    as (Htr & Hws & _ & _ & _ & Hbuf & Hout).
  pose proof (log_event_logs now json_dumps "client" ev w) as Hlogs.
  set (w1 := snd (log_event "client" ev w)) in *.
  assert (Hws1 : ws (client w1) <> None).
  { simpl in Hws. rewrite Hws. unfold is_connected in Hc.
    destruct (ws (client w)); [discriminate|discriminate]. }
  destruct (schedule_send_outbox (json_dumps ev) w1 Hws1)
    as (Ho & Hcon & Hl & Ht & _ & Hb & Hs).
  simpl in *.
  assert (Hout1 : Usage.outbox w1 = Usage.outbox w)
    by (unfold Usage.outbox; now rewrite Hws).
  assert (Hc1 : is_connected (client w1) = true)
    by (unfold is_connected in *; now rewrite Hws).
  repeat split; congruence.
Qed.

(** Frames leave in the order of the calls: after any number of accepted
    [send] calls on a connected client the outbox is the old outbox
    followed by one frame per call, in call order. *)
Theorem send_all_fifo (calls : list (string * py_value)) :
  forall w,
    is_connected (client w) = true ->
    forallb (fun c => accepted (snd c)) calls = true ->
    fst (send_all calls w) = Ok true /\
    Usage.outbox (snd (send_all calls w))
      = Usage.outbox w
        ++ map (fun c => json_dumps (event_of (fst c) (snd c))) calls.
Proof.
  induction calls as [|[event_name data] rest IH]; intros w Hc Hall; simpl.
  - split; [reflexivity|now rewrite app_nil_r].
  - simpl in Hall. apply andb_prop in Hall as [Ha Hrest].
    unfold bind.
    destruct (send_accepted_outbox w event_name data Hc Ha)
      as (Hok & Hout & Hc').
    destruct (send event_name data w) as [r w1]. simpl in *. subst r.
    destruct (IH w1 Hc' Hrest) as [Hok' Hout'].
    split; [exact Hok'|]. rewrite Hout', Hout. now rewrite <- app_assoc.
Qed.

(** ** The event that is sent *)

Lemma dict_lookup_set (d : list (string * py_value)) (k k' : string)
    (v : py_value) :
  dict_lookup (dict_set d k v) k'
    = if (k =? k')%string then Some v else dict_lookup d k'.
Proof.
  induction d as [|[k0 v0] d IH]; simpl.
  - reflexivity.
  - destruct (String.eqb_spec k0 k) as [->|Hne]; simpl.
    + destruct (String.eqb_spec k k'); reflexivity.
    + rewrite IH.
      destruct (String.eqb_spec k0 k') as [->|]; [|reflexivity].
      destruct (String.eqb_spec k k'); [congruence|reflexivity].
Qed.

Lemma dict_lookup_absent (d : list (string * py_value)) (k : string) :
  ~ In k (map fst d) -> dict_lookup d k = None.
Proof.
  induction d as [|[k0 v0] d IH]; simpl; intros Hn; [reflexivity|].
  destruct (String.eqb_spec k0 k) as [->|].
  - exfalso. apply Hn. now left.
  - apply IH. intros Hin. apply Hn. now right.
Qed.

Lemma dict_lookup_merge (d : list (string * py_value)) (k : string) :
  NoDup (map fst d) ->
  forall base,
    dict_lookup (dict_merge base d) k
      = match dict_lookup d k with
        | Some v => Some v
        | None => dict_lookup base k
        end.
Proof.
  unfold dict_merge.
  induction d as [|[k0 v0] d IH]; simpl; intros Hnd base; [reflexivity|].
  inversion Hnd as [|? ? Hnotin Hnd']; subst.
  rewrite (IH Hnd'), dict_lookup_set.
  destruct (String.eqb_spec k0 k) as [->|]; [|reflexivity].
  now rewrite (dict_lookup_absent d k Hnotin).
Qed.

(** The event [send] transmits for a dict payload has the fields of the
    payload, and its [type] is the payload's own [type] when it has one:
    the [event_name] argument is only the default. *)
Theorem send_type_override
    (w : World) (event_name : string) (d : list (string * py_value)) :
  is_connected (client w) = true ->
  NoDup (map fst d) ->
  exists fields,
    Usage.outbox (snd (send event_name (PyDict d) w))
      = Usage.outbox w ++ [json_dumps (PyDict fields)] /\
    dict_lookup fields "type"
      = Some (match dict_lookup d "type" with
              | Some ty => ty
              | None => PyStr event_name
              end) /\
    forall k, k <> "type" -> dict_lookup fields k = dict_lookup d k.
Proof using now json_dumps.
  intros Hc Hnd.
  exists (dict_merge [("type", PyStr event_name)] d).
  split; [|split].
  - destruct (send_accepted_outbox w event_name (PyDict d) Hc eq_refl)
      as (_ & Hout & _).
    rewrite Hout. unfold event_of. simpl. now destruct d.
  - rewrite (dict_lookup_merge d "type" Hnd). simpl.
    now destruct (dict_lookup d "type").
  - intros k Hk. rewrite (dict_lookup_merge d k Hnd).
    destruct (dict_lookup d k); [reflexivity|].
    cbn [dict_lookup].
    destruct (String.eqb_spec "type" k); [congruence|reflexivity].
Qed.

(** ** Receiving *)

(** [receive], step by step. *)
Lemma receive_steps (event : py_value) (w : World) :
  receive event w
    = let w1 := snd (log_event "server" event w) in
      match py_get event "type" with
      | Raise e => (Raise e, w1)
      | Ok ty =>
          match py_in "response.audio" ty with
          | Raise e => (Raise e, w1)
          | Ok false => (Ok true, w1)
          | Ok true =>
              match handle_audio event w1 with
              | (Ok _, w2) => (Ok true, w2)
              | (Raise e, w2) => (Raise e, w2)
              end
          end
      end.
Proof.
  unfold Client.receive, bind, pure, ret.
  pose proof (log_event_ok now json_dumps "server" event w) as Hok.
  destruct (log_event "server" event w) as [r w1]. simpl in *. subst r.
  destruct (py_get event "type") as [ty|e]; [|reflexivity].
  destruct (py_in "response.audio" ty) as [[|]|e]; reflexivity.
Qed.

Lemma contains_audio_tag :
  contains "response.audio" "response.audio.delta" = true.
Proof. reflexivity. Qed.

(** [handle_audio] on an audio delta, with a sink installed. *)
Lemma handle_audio_audio_delta
    (d : list (string * py_value)) (cb : sink) (w : World) :
  dict_lookup d "type" = Some (PyStr "response.audio.delta") ->
  audio_buffer_cb (client w) = Some cb ->
  handle_audio (PyDict d) w
    = match b64decode (match dict_lookup d "delta" with
                       | Some v => v
                       | None => PyNone
                       end) with
      | Raise e => (Raise e, w)
      | Ok bytes =>
          match frombuffer bytes with
          | Raise e => (Raise e, w)
          | Ok pcm => (Ok tt, set_audio_buffer (cb pcm (audio_buffer w)) w)
          end
      end.
Proof.
  intros Hty Hcb.
  unfold Client.handle_audio, bind, pure, get, modify, ret. simpl.
  rewrite Hty. simpl. rewrite Hcb.
  destruct (b64decode _) as [bytes|e]; [|reflexivity].
  destruct (frombuffer bytes); reflexivity.
Qed.

(** An audio delta received by a client with a sink: when the payload
    decodes from base64 to a whole number of samples, [receive] returns
    [True] and the sink is applied to those samples and the playback
    buffer; when either decoding step fails, [receive] raises that error
    and the buffer is untouched.  The transcript is untouched either
    way. *)
Theorem receive_audio_delta
    (d : list (string * py_value)) (cb : sink) (w : World) :
  dict_lookup d "type" = Some (PyStr "response.audio.delta") ->
  audio_buffer_cb (client w) = Some cb ->
  let payload := match dict_lookup d "delta" with
                 | Some v => v
                 | None => PyNone
                 end in
  let r := receive (PyDict d) w in
  transcript (client (snd r)) = transcript (client w) /\
  match b64decode payload with
  | Raise e => fst r = Raise e /\ audio_buffer (snd r) = audio_buffer w
  | Ok bytes =>
      match frombuffer bytes with
      | Raise e => fst r = Raise e /\ audio_buffer (snd r) = audio_buffer w
      | Ok pcm =>
          fst r = Ok true /\
          audio_buffer (snd r) = cb pcm (audio_buffer w)
      end
  end.
Proof.
  intros Hty Hcb payload r. subst payload r.
  rewrite receive_steps. cbv zeta.
  destruct (log_event_frame now json_dumps "server" (PyDict d) w)
    as (Htr & _ & _ & Hcb1 & _ & Hbuf & _).
  set (w1 := snd (log_event "server" (PyDict d) w)) in *. simpl in Htr, Hcb1, Hbuf.
  cbn [py_get]. rewrite Hty. cbn [py_in]. rewrite contains_audio_tag.
  rewrite (handle_audio_audio_delta d cb w1 Hty) by congruence.
  destruct (b64decode _) as [bytes|e]; simpl; [|auto].
  destruct (frombuffer bytes) as [pcm|e]; simpl; [|auto].
  split; [exact Htr|]. split; [reflexivity|]. now rewrite Hbuf.
Qed.

Lemma py_eq_str_true (v : py_value) (s : string) :
  py_eq_str v s = true -> v = PyStr s.
Proof.
  destruct v as [| | |t| |]; simpl; try discriminate.
  intros H. apply String.eqb_eq in H. now subst.
Qed.

Lemma handle_audio_buffer (event : py_value) (w : World) :
  audio_buffer (snd (handle_audio event w)) = audio_buffer w \/
  (py_get event "type" = Ok (PyStr "response.audio.delta") /\
   exists cb pcm,
     audio_buffer_cb (client w) = Some cb /\
     audio_buffer (snd (handle_audio event w)) = cb pcm (audio_buffer w)).
Proof.
  unfold Client.handle_audio, bind, pure, get, modify, ret. simpl.
  destruct (py_get event "type") as [ty|e]; simpl; auto.
  destruct (py_eq_str ty "response.audio_transcript.delta") eqn:E1; simpl.
  - apply py_eq_str_true in E1. subst ty. simpl.
    destruct (py_get event "delta") as [dl|e]; simpl; auto.
    destruct (str_iadd (transcript (client w)) dl) as [t|e]; simpl; auto.
  - destruct (py_eq_str ty "response.audio.delta") eqn:E2; simpl; auto.
    apply py_eq_str_true in E2. subst ty.
    destruct (audio_buffer_cb (client w)) as [cb|] eqn:Ecb; simpl; auto.
    destruct (py_get event "delta") as [dl|e]; simpl; auto.
    destruct (b64decode dl) as [bytes|e]; simpl; auto.
    destruct (frombuffer bytes) as [pcm|e]; simpl; auto.
    right. split; [reflexivity|]. now exists cb, pcm.
Qed.

(** [receive] changes the playback buffer in one way only: by applying
    the installed sink to it, and only for an event whose [type] is
    exactly [response.audio.delta].  Any other event, and any event at all
    on a client without a sink, leaves the buffer as it is. *)
Theorem audio_buffer_changes_only_on_audio_delta
    (event : py_value) (w : World) :
  audio_buffer (snd (receive event w)) = audio_buffer w \/
  (py_get event "type" = Ok (PyStr "response.audio.delta") /\
   exists cb pcm,
     audio_buffer_cb (client w) = Some cb /\
     audio_buffer (snd (receive event w)) = cb pcm (audio_buffer w)).
Proof.
  rewrite receive_steps. cbv zeta.
  destruct (log_event_frame now json_dumps "server" event w)
    as (_ & _ & _ & Hcb1 & _ & Hbuf & _).
  set (w1 := snd (log_event "server" event w)) in *. simpl in Hcb1, Hbuf.
  destruct (py_get event "type") as [ty|e] eqn:Ety; simpl; auto.
  destruct (py_in "response.audio" ty) as [[|]|e]; simpl; auto.
  destruct (handle_audio_buffer event w1) as [Hsame|(Hty & cb & pcm & Hcb & Hnew)].
  - left. destruct (handle_audio event w1) as [[u|e] w2]; simpl in *; congruence.
  - right. split; [congruence|]. exists cb, pcm.
    split; [congruence|].
    destruct (handle_audio event w1) as [[u|e] w2]; simpl in *; congruence.
Qed.

Lemma handle_audio_debug (event : py_value) (w : World) :
  debug (client (snd (handle_audio event w))) = debug (client w).
Proof.
  unfold Client.handle_audio, bind, pure, get, modify, ret. simpl.
  destruct (py_get event "type") as [ty|e]; simpl; auto.
  destruct (py_eq_str ty "response.audio_transcript.delta"); simpl.
  - destruct (py_get event "delta") as [dl|e]; simpl; auto.
    destruct (str_iadd (transcript (client w)) dl) as [t|e]; simpl; auto.
    repeat break_match; simpl; auto.
  - repeat break_match; simpl; auto.
Qed.

Lemma receive_logs (event : py_value) (w : World) :
  logs (client (snd (receive event w)))
    = (if debug (client w)
       then logs (client w) ++ [(now, "server", json_dumps event)]
       else logs (client w)) /\
  debug (client (snd (receive event w))) = debug (client w).
Proof.
  rewrite receive_steps. cbv zeta.
  pose proof (log_event_logs now json_dumps "server" event w) as Hl.
  destruct (log_event_frame now json_dumps "server" event w)
    as (_ & _ & _ & _ & Hd & _).
  set (w1 := snd (log_event "server" event w)) in *. simpl in Hd.
  destruct (py_get event "type") as [ty|e]; simpl; auto.
  destruct (py_in "response.audio" ty) as [[|]|e]; simpl; auto.
  destruct (handle_audio_frame b64decode event w1) as (_ & _ & Hlg & _).
  pose proof (handle_audio_debug event w1) as Hdb.
  destruct (handle_audio event w1) as [[u|e] w2]; simpl in *;
    split; congruence.
Qed.

(** With [debug] set every event handed to [receive] is recorded, in
    arrival order and before it is looked at, so also the events that make
    [receive] raise; without [debug] the log never changes. *)
Theorem receive_all_logs_every_event (events : list py_value) :
  forall w,
    logs (client (receive_all events w))
      = if debug (client w)
        then logs (client w)
             ++ map (fun ev => (now, "server", json_dumps ev)) events
        else logs (client w).
Proof.
  induction events as [|ev rest IH]; intros w; simpl.
  - destruct (debug (client w)); [now rewrite app_nil_r|reflexivity].
  - rewrite IH. destruct (receive_logs ev w) as [Hl Hd].
    rewrite Hd, Hl.
    destruct (debug (client w)); [now rewrite <- app_assoc|reflexivity].
Qed.

(** ** The receive loop *)

Lemma _message_handler_without_ws (script : list incoming) (w : World) :
  ws (client w) = None -> _message_handler script w = (Running, w).
Proof.
  intros Hws. induction script as [|i rest IH]; simpl; [reflexivity|].
  now rewrite Hws.
Qed.

(** Turns of the loop in which the read timed out leave no trace: the
    loop ends in the same status and the same state as on the script
    without them. *)
Theorem _message_handler_timeouts_ignored (script : list incoming) :
  forall w,
    _message_handler script w
      = _message_handler (filter (fun i => negb (is_timeout i)) script) w.
Proof.
  induction script as [|i rest IH]; intros w; [reflexivity|].
  destruct (ws (client w)) as [s|] eqn:E.
  2:{ now rewrite !_message_handler_without_ws. }
  destruct i as [| |raw loads]; cbn [filter is_timeout negb].
  - cbn [Client._message_handler]. rewrite E.
    unfold handler_body, bind, recv, raise. apply IH.
  - cbn [Client._message_handler]. rewrite E. reflexivity.
  - cbn [Client._message_handler]. rewrite E.
    destruct (handler_body now json_dumps b64decode (RecvMessage raw loads) w)
      as [[b|e] w']; [apply IH|].
    destruct e; try reflexivity; apply IH.
Qed.

(** When the server closes the connection the loop leaves through
    [break]: nothing is printed, [disconnect] is not called, and the
    client keeps its handle, now closed, and its finished task.  It
    reports not connected, and a [send] after that is refused. *)
Theorem _message_handler_closed
    (pre rest : list incoming) (w w1 : World) (s : WebSocket)
    (event_name : string) (data : py_value) :
  _message_handler pre w = (Running, w1) ->
  ws (client w1) = Some s ->
  let r := _message_handler (pre ++ RecvClosed :: rest) w in
  fst r = Finished /\
  ws (client (snd r)) = Some {| open := false; Client.outbox := Client.outbox s |} /\
  is_connected (client (snd r)) = false /\
  _message_handler_task (client (snd r))
    = option_map (fun _ => MkTask true) (_message_handler_task (client w1)) /\
  transcript (client (snd r)) = transcript (client w1) /\
  logs (client (snd r)) = logs (client w1) /\
  stdout (snd r) = stdout w1 /\
  send event_name data (snd r) = (Raise NotConnected, snd r).
Proof.
  intros Hpre Hws r. subst r.
  rewrite _message_handler_app, Hpre.
  destruct w1 as [[dbg lg tr sock t cb] b o]. simpl in Hws. subst sock.
  destruct t; simpl; repeat split.
Qed.

(** Any error that [receive] raises on a decoded message, bar the two
    the inner handlers catch, ends the session: the loop reports it,
    disconnects and stops reading.  What [receive] had done before the
    raise, the log entry included, stays. *)
Theorem receive_error_ends_session
    (raw : string) (event : py_value) (rest : list incoming)
    (w w' : World) (e : exn) :
  ws (client w) <> None ->
  receive event w = (Raise e, w') ->
  e <> TimeoutError ->
  e <> ConnectionClosed ->
  let r := _message_handler (RecvMessage raw (Ok event) :: rest) w in
  fst r = Crashed /\
  stdout (snd r) = stdout w ++ [MessageHandlerError e] /\
  ws (client (snd r)) = None /\
  _message_handler_task (client (snd r)) = None /\
  is_connected (client (snd r)) = false /\
  logs (client (snd r)) = logs (client w') /\
  transcript (client (snd r)) = transcript (client w') /\
  audio_buffer (snd r) = audio_buffer w'.
Proof.
  intros Hws Hrecv Hne1 Hne2 r. subst r.
  destruct (receive_frame now json_dumps b64decode event w) as (_ & _ & Hout).
  rewrite Hrecv in Hout. simpl in Hout.
  cbn [Client._message_handler].
  destruct (ws (client w)) as [s|]; [|contradiction].
  unfold handler_body, bind, recv, ret, pure. rewrite Hrecv.
  assert (Hcrash :
    (Crashed, task_done (snd (handler_except e w')))
      = (Crashed,
         {| client := set_task None (set_ws None (client w'));
            audio_buffer := audio_buffer w';
            stdout := stdout w' ++ [MessageHandlerError e] |})).
  { destruct w' as [[dbg lg tr [s'|] t cb] b o]; reflexivity. }
  destruct e; try contradiction; rewrite Hcrash; simpl;
    rewrite Hout; repeat split.
Qed.

(** ** Connecting *)

(** [connect] on a client that is not connected, whether it never was or
    its connection has closed: when the handshake succeeds the client
    gets a fresh open connection with nothing in its outbox and a new
    receive task, and keeps its transcript and log; when the handshake
    raises, the error comes out of [connect] and nothing has changed. *)
Theorem connect_when_not_connected
    (w : World) (model : string) (e : exn) :
  is_connected (client w) = false ->
  (let r := connect model None w in
   fst r = Ok true /\
   ws (client (snd r)) = Some {| open := true; Client.outbox := [] |} /\
   is_connected (client (snd r)) = true /\
   _message_handler_task (client (snd r)) = Some (MkTask false) /\
   transcript (client (snd r)) = transcript (client w) /\
   logs (client (snd r)) = logs (client w) /\
   audio_buffer (snd r) = audio_buffer w) /\
  connect model (Some e) w = (Raise e, w).
Proof.
  intros Hc. unfold connect. rewrite Hc. simpl. repeat split.
Qed.

End ClientRuns.

(* ================================================================== *)
(** * Properties of the application functions *)

Section AppFacts.
Import App.

Variable now : string.
Variable json_dumps : py_value -> string.
Variable b64encode : list byte -> string.

Local Abbreviation send_session_update := (App.send_session_update json_dumps).
Local Abbreviation initialize_client := (App.initialize_client json_dumps).
Local Abbreviation stop_recording := (App.stop_recording now json_dumps).
Local Abbreviation audio_recorder_loop :=
  (App.audio_recorder_loop now json_dumps b64encode).
Local Abbreviation audio_recorder :=
  (App.audio_recorder now json_dumps b64encode).

(** The frame of an event with the given tag and no other field. *)
Local Abbreviation bare_frame ty := (json_dumps (PyDict [("type", PyStr ty)])).

(** ** Start-up *)

(** On a session without a client, when the handshake succeeds,
    [initialize_client] leaves a connected client with [debug] set whose
    first and only frame is the [session.update] event, marks the session
    connected, and reports no error. *)
Theorem initialize_client_success (a : State) :
  client a = None ->
  let r := initialize_client None a in
  fst r = Ok tt /\
  connected (snd r) = true /\
  connection_error (snd r) = connection_error a /\
  is_connected (snd r) = true /\
  outbox (snd r) = [json_dumps session_update] /\
  option_map Client.debug (client (snd r)) = Some true /\
  stdout (snd r) = stdout a ++ [SendingSessionUpdate session_update] /\
  recorder (snd r) = recorder a /\
  recording (snd r) = recording a.
Proof.
  intros Hc. unfold App.initialize_client. rewrite Hc.
  destruct a as [started conn err cl rcd rec buf cout out]. simpl in *.
  repeat split.
Qed.

(** When the handshake fails, the session is marked not connected and
    keeps the text of the error; the client object stays in the session,
    so every later [initialize_client], whatever the network would do
    then, returns at once and changes nothing: the connection is never
    tried again. *)
Theorem initialize_client_failure_not_retried (a : State) (e : exn) :
  client a = None ->
  let a1 := snd (initialize_client (Some e) a) in
  fst (initialize_client (Some e) a) = Ok tt /\
  connected a1 = false /\
  connection_error a1 = Some (StrOf e) /\
  is_connected a1 = false /\
  outbox a1 = [] /\
  forall handshake, initialize_client handshake a1 = (Ok tt, a1).
Proof.
  intros Hc. unfold App.initialize_client. rewrite Hc.
  destruct a as [started conn err cl rcd rec buf cout out]. simpl in *.
  repeat split.
Qed.

(** ** Recording *)

(** [start_recording] sets the session flag before it opens the device.
    When the device fails, the error comes out with the flag set and the
    recorder idle, and from then on [start_recording] does nothing, even
    with a working device. *)
Theorem start_recording_device_failure (a : State) (e : exn) :
  recording a = false ->
  Recorder.is_recording (recorder a) = false ->
  let r := start_recording (Some e) a in
  fst r = Raise e /\
  recording (snd r) = true /\
  Recorder.is_recording (recorder (snd r)) = false /\
  Recorder.stream (recorder (snd r)) = Recorder.stream (recorder a) /\
  forall device, start_recording device (snd r) = (Ok tt, snd r).
Proof.
  intros Hrec Hr. unfold start_recording, on_recorder, bind, modify.
  rewrite Hrec. simpl. unfold Recorder.start_recording. rewrite Hr. simpl.
  rewrite Hr. repeat split.
Qed.

Lemma bind_ok {S A B} (m : M S A) (k : A -> M S B) (a a' : S) (x : A) :
  m a = (Ok x, a') -> bind m k a = k x a'.
Proof. intros H. unfold bind. now rewrite H. Qed.

Lemma bind_raise {S A B} (m : M S A) (k : A -> M S B) (a a' : S) (e : exn) :
  m a = (Raise e, a') -> bind m k a = (Raise e, a').
Proof. intros H. unfold bind. now rewrite H. Qed.

Lemma on_recorder_stop (a : State) :
  on_recorder Recorder.stop_recording a
    = (Ok tt, set_recorder (snd (Recorder.stop_recording (recorder a))) a).
Proof.
  unfold on_recorder, Recorder.stop_recording.
  destruct (Recorder.is_recording (recorder a)), (Recorder.stream (recorder a));
    reflexivity.
Qed.

(** [on_client] of an accepted [send]. *)
Lemma on_client_send_accepted
    (a : State) (event_name : string) (data : py_value) :
  is_connected a = true ->
  Usage.accepted data = true ->
  let r := on_client (Client.send now json_dumps event_name data) a in
  fst r = Ok true /\
  outbox (snd r)
    = outbox a ++ [json_dumps (Usage.event_of event_name data)] /\
  is_connected (snd r) = true /\
  recorder (snd r) = recorder a /\
  recording (snd r) = recording a.
Proof.
  intros Hc Ha. unfold on_client, is_connected, outbox in *.
  destruct (client a) as [c|] eqn:E; [|discriminate].
  set (w := {| Client.client := c; Client.audio_buffer := audio_buffer a;
               Client.stdout := client_stdout a |}).
  destruct (send_accepted_outbox now json_dumps w event_name data Hc Ha)
    as (Hok & Hout & Hc').
  destruct (Client.send now json_dumps event_name data w) as [r w'].
  simpl in *. unfold Usage.outbox in Hout. simpl in Hout.
  repeat split; assumption.
Qed.

(** [stop_recording] while recording on a connected client clears the
    flag, stops the recorder, and sends two frames in this order: the
    commit of the input buffer, then the request for a response carrying
    the system message. *)
Theorem stop_recording_sends_commit_then_response (a : State) :
  recording a = true ->
  is_connected a = true ->
  let r := stop_recording a in
  fst r = Ok tt /\
  recording (snd r) = false /\
  recorder (snd r) = snd (Recorder.stop_recording (recorder a)) /\
  is_connected (snd r) = true /\
  outbox (snd r)
    = outbox a
      ++ [bare_frame "input_audio_buffer.commit";
          json_dumps (PyDict [("type", PyStr "response.create");
                              ("system_message", PyStr SYSTEM_MESSAGE)])].
Proof.
  intros Hrec Hc r. subst r. unfold App.stop_recording. rewrite Hrec.
  set (a1 := set_recording false a).
  set (a2 := set_recorder (snd (Recorder.stop_recording (recorder a))) a1).
  assert (Hc2 : is_connected a2 = true) by exact Hc.
  destruct (on_client_send_accepted a2 "input_audio_buffer.commit" PyNone
              Hc2 eq_refl) as (Hok1 & Hout1 & Hc3 & Hr3 & Hg3).
  destruct (on_client (Client.send now json_dumps "input_audio_buffer.commit"
                         PyNone) a2) as [r3 a3] eqn:E3.
  simpl in Hok1, Hout1, Hc3, Hr3, Hg3. subst r3.
  destruct (on_client_send_accepted a3 "response.create"
              (PyDict [("system_message", PyStr SYSTEM_MESSAGE)])
              Hc3 eq_refl) as (Hok2 & Hout2 & Hc4 & Hr4 & Hg4).
  destruct (on_client (Client.send now json_dumps "response.create"
                         (PyDict [("system_message", PyStr SYSTEM_MESSAGE)])) a3)
    as [r4 a4] eqn:E4.
  simpl in Hok2, Hout2, Hc4, Hr4, Hg4. subst r4.
  erewrite bind_ok; [|reflexivity].
  erewrite bind_ok; [|apply on_recorder_stop].
  erewrite bind_ok; [|exact E3].
  erewrite bind_ok; [|exact E4].
  unfold ret. simpl.
  repeat split; try congruence.
  rewrite Hout2, Hout1. rewrite <- app_assoc. reflexivity.
Qed.

(** [stop_recording] while recording on a client that is not connected:
    the flag is cleared and the recorder stopped first, then the commit is
    refused and the error comes out; nothing has been sent. *)
Theorem stop_recording_disconnected
    (a : State) (c : Client.SimpleRealtime) :
  recording a = true ->
  client a = Some c ->
  Client.is_connected c = false ->
  let r := stop_recording a in
  fst r = Raise Client.NotConnected /\
  recording (snd r) = false /\
  recorder (snd r) = snd (Recorder.stop_recording (recorder a)) /\
  client (snd r) = Some c.
Proof.
  intros Hrec Hcl Hc. unfold App.stop_recording. rewrite Hrec.
  unfold bind, modify, on_recorder, on_client. simpl.
  assert (Hok : fst (Recorder.stop_recording (recorder a)) = Ok tt).
  { unfold Recorder.stop_recording.
    destruct (Recorder.is_recording (recorder a)), (Recorder.stream (recorder a));
      reflexivity. }
  destruct (Recorder.stop_recording (recorder a)) as [r0 r']. simpl in *.
  subst r0. simpl. rewrite Hcl.
  unfold Client.send, bind, get, raise. simpl. rewrite Hc. simpl.
  repeat split.
Qed.

(** ** Forwarding captured audio *)

(** The frame [audio_recorder] sends for one chunk. *)
Local Abbreviation append_frame chunk :=
  (json_dumps (PyDict [("type", PyStr "input_audio_buffer.append");
                       ("audio", PyStr (b64encode (tobytes chunk)))])).

Lemma audio_recorder_loop_drains (fuel : nat) :
  forall a,
    is_connected a = true ->
    (length (Recorder.audio_queue (recorder a)) <= fuel)%nat ->
    exists a',
      audio_recorder_loop fuel a = Some (Ok tt, a') /\
      outbox a'
        = outbox a
          ++ map (fun chunk => append_frame chunk)
                 (Recorder.audio_queue (recorder a)) /\
      Recorder.audio_queue (recorder a') = [] /\
      recording a' = recording a /\
      is_connected a' = true.
Proof.
  induction fuel as [|fuel IH]; intros a Hc Hlen.
  - destruct (Recorder.audio_queue (recorder a)) as [|c q] eqn:Q;
      [|simpl in Hlen; lia].
    exists a. simpl. rewrite Q. simpl. rewrite app_nil_r. auto.
  - destruct (Recorder.audio_queue (recorder a)) as [|c q] eqn:Q.
    + exists a. simpl. rewrite Q. simpl. rewrite app_nil_r. auto.
    + cbn [App.audio_recorder_loop]. rewrite Q.
      unfold on_recorder at 1, Recorder.get_audio_chunk at 1. rewrite Q.
      set (a1 := set_recorder (Recorder.with_queue q (recorder a)) a).
      assert (Hc1 : is_connected a1 = true) by exact Hc.
      destruct (on_client_send_accepted a1 "input_audio_buffer.append"
                  (append_payload b64encode c) Hc1 eq_refl)
        as (Hok & Hout & Hc2 & Hr2 & Hg2).
      destruct (on_client _ a1) as [r2 a2]. simpl in Hok, Hout, Hc2, Hr2, Hg2.
      subst r2.
      assert (Hlen2 : (length (Recorder.audio_queue (recorder a2)) <= fuel)%nat)
        by (rewrite Hr2; simpl in *; lia).
      destruct (IH a2 Hc2 Hlen2) as (a' & Hrun & Hout' & Hq' & Hg' & Hc').
      exists a'. rewrite Hrun. repeat split; auto.
      * rewrite Hout', Hout, Hr2. simpl. now rewrite <- app_assoc.
      * congruence.
Qed.

(** While recording on a connected client, [audio_recorder] empties the
    capture queue: the loop ends within as many turns as there are queued
    chunks, and the connection receives one append frame per chunk, in
    the order the chunks were captured, each carrying the base64 text of
    the chunk's bytes. *)
Theorem audio_recorder_drains_fifo (fuel : nat) (a : State) :
  recording a = true ->
  is_connected a = true ->
  (length (Recorder.audio_queue (recorder a)) <= fuel)%nat ->
  exists a',
    audio_recorder fuel a = Some (Ok tt, a') /\
    outbox a'
      = outbox a
        ++ map (fun chunk => append_frame chunk)
               (Recorder.audio_queue (recorder a)) /\
    Recorder.audio_queue (recorder a') = [] /\
    recording a' = true.
Proof.
  intros Hrec Hc Hlen. unfold App.audio_recorder. rewrite Hrec.
  destruct (audio_recorder_loop_drains fuel a Hc Hlen)
    as (a' & Hrun & Hout & Hq & Hg & _).
  exists a'. repeat split; auto. congruence.
Qed.

Lemma on_client_frame {A} (m : M Client.World A) (a : State) :
  recorder (snd (on_client m a)) = recorder a /\
  recording (snd (on_client m a)) = recording a.
Proof.
  unfold on_client. destruct (client a); [|auto].
  destruct (m _) as [r w]. auto.
Qed.

(** After [stop_recording], however it ends, the flag is cleared and the
    queue is as before. *)
Lemma stop_recording_flag (a : State) :
  recording (snd (stop_recording a)) = false /\
  Recorder.audio_queue (recorder (snd (stop_recording a)))
    = Recorder.audio_queue (recorder a).
Proof.
  unfold App.stop_recording. destruct (recording a) eqn:Hrec; [|auto].
  set (m1 := Client.send now json_dumps "input_audio_buffer.commit" PyNone).
  set (m2 := Client.send now json_dumps "response.create"
               (PyDict [("system_message", PyStr SYSTEM_MESSAGE)])).
  assert (Hchain : forall b,
            recording (snd ((on_client m1 ;;; on_client m2 ;;; ret tt)%py b))
              = recording b /\
            recorder (snd ((on_client m1 ;;; on_client m2 ;;; ret tt)%py b))
              = recorder b).
  { intros b. unfold bind, ret.
    destruct (on_client_frame m1 b) as [Hr3 Hg3].
    destruct (on_client m1 b) as [[x|e] a3]; cbn [fst snd] in *; [|auto].
    destruct (on_client_frame m2 a3) as [Hr4 Hg4].
    destruct (on_client m2 a3) as [[y|e] a4]; cbn [fst snd] in *;
      split; congruence. }
  erewrite bind_ok; [|reflexivity].
  erewrite bind_ok; [|apply on_recorder_stop].
  match goal with
  | |- context [(on_client m1 ;;; on_client m2 ;;; ret tt)%py ?b] =>
      destruct (Hchain b) as [Hg Hr]
  end.
  rewrite Hg, Hr. split; [reflexivity|]. apply stop_recording_queue.
Qed.

(** Chunks still queued when [stop_recording] runs are not forwarded:
    whether the two frames go out or the commit is refused, the queue is
    left as it was, and since [audio_recorder] only works while the
    recording flag is set, it sends nothing afterwards. *)
Theorem chunks_queued_at_stop_stay_queued (fuel : nat) (a : State) :
  let a' := snd (stop_recording a) in
  Recorder.audio_queue (recorder a') = Recorder.audio_queue (recorder a) /\
  audio_recorder fuel a' = Some (Ok tt, a').
Proof.
  intros a'. subst a'.
  destruct (stop_recording_flag a) as [Hflag Hq].
  split; [exact Hq|].
  unfold App.audio_recorder. now rewrite Hflag.
Qed.

End AppFacts.

(* ================================================================== *)
(** * The further properties on concrete runs *)

Section MoreRuns.
Import Client.

Local Abbreviation run_receive :=
  (receive Samples.now Samples.json_dumps Samples.b64decode).
Local Abbreviation run_log_event := (log_event Samples.now Samples.json_dumps).
Local Abbreviation run_send := (send Samples.now Samples.json_dumps).
Local Abbreviation run_send_all :=
  (Usage.send_all Samples.now Samples.json_dumps).
Local Abbreviation run_handler :=
  (_message_handler Samples.now Samples.json_dumps Samples.b64decode).

Lemma receive_other_str_type_witness :
  run_receive (PyDict [("type", PyStr "response.done")]) Samples.connected
    = run_log_event "server" (PyDict [("type", PyStr "response.done")])
        Samples.connected.
Proof.
  apply (receive_other_str_type Samples.now Samples.json_dumps
           Samples.b64decode [("type", PyStr "response.done")]
           "response.done" Samples.connected);
    [reflexivity|discriminate|discriminate].
Defined.

Lemma send_truthy_non_dict_rejected_witness :
  run_send "response.create" (PyStr "hello") Samples.connected
    = (Raise InvalidPayload, Samples.connected).
Proof.
  apply (send_truthy_non_dict_rejected Samples.now Samples.json_dumps
           Samples.connected "response.create" (PyStr "hello"));
    reflexivity.
Defined.

Lemma send_accepted_effect_witness :
  let data := PyDict [("system_message", PyStr "hi")] in
  let r := run_send "response.create" data Samples.connected in
  fst r = Ok true /\
  Usage.outbox (snd r)
    = [Samples.json_dumps (Usage.event_of "response.create" data)].
Proof.
  intros data r.
  destruct (send_accepted_effect Samples.now Samples.json_dumps
              Samples.connected "response.create" data eq_refl eq_refl)
    as (Hok & Hout & _).
  split; [exact Hok|exact Hout].
Defined.

Lemma send_all_fifo_witness :
  let calls := [("input_audio_buffer.commit", PyNone);
                ("response.create", PyDict [("system_message", PyStr "hi")])] in
  Usage.outbox (snd (run_send_all calls Samples.connected))
    = map (fun c => Samples.json_dumps (Usage.event_of (fst c) (snd c))) calls.
Proof.
  intros calls.
  exact (proj2 (send_all_fifo Samples.now Samples.json_dumps calls
                  Samples.connected eq_refl eq_refl)).
Defined.

Lemma send_type_override_witness :
  let d := [("type", PyStr "custom"); ("x", PyInt 1)] in
  exists fields,
    Usage.outbox (snd (run_send "response.create" (PyDict d) Samples.connected))
      = [Samples.json_dumps (PyDict fields)] /\
    dict_lookup fields "type" = Some (PyStr "custom").
Proof.
  intros d.
  assert (Hnd : NoDup (map fst d)).
  { repeat constructor; simpl; intuition discriminate. }
  destruct (send_type_override Samples.now Samples.json_dumps
              Samples.connected "response.create" d eq_refl Hnd)
    as (fields & Hout & Hty & _).
  exists fields. split; [exact Hout|exact Hty].
Defined.

Lemma receive_audio_delta_witness :
  let d := [("type", PyStr "response.audio.delta");
            ("delta", PyStr "AAEAAQ==")] in
  let r := run_receive (PyDict d) Samples.connected in
  fst r = Ok true /\
  audio_buffer (snd r) = [256; 256].
Proof.
  intros d r.
  exact (proj2 (receive_audio_delta Samples.now Samples.json_dumps
                  Samples.b64decode d Playback.audio_buffer_cb
                  Samples.connected eq_refl eq_refl)).
Defined.

Lemma _message_handler_closed_witness :
  let pre := [Samples.transcript_message "hi"] in
  let r := run_handler (pre ++ [RecvClosed; Samples.transcript_message "lost"])
             Samples.connected in
  fst r = Finished /\
  ws (client (snd r)) <> None /\
  is_connected (client (snd r)) = false /\
  transcript (client (snd r)) = "hi".
Proof.
  intros pre r.
  destruct (_message_handler_closed Samples.now Samples.json_dumps
              Samples.b64decode pre [Samples.transcript_message "lost"]
              Samples.connected (snd (run_handler pre Samples.connected))
              AppSamples.open_socket "response.create" PyNone
              eq_refl eq_refl)
    as (Hst & Hws & Hc & _ & Htr & _).
  split; [exact Hst|]. split; [|split; [exact Hc|exact Htr]].
  cbv zeta in Hws. fold r in Hws. rewrite Hws. discriminate.
Defined.

Lemma receive_error_ends_session_witness :
  let r := run_handler
             [RecvMessage "" (Ok AppSamples.bad_audio_event);
              Samples.transcript_message "lost"]
             Samples.connected in
  fst r = Crashed /\
  stdout (snd r) = [MessageHandlerError BinasciiError] /\
  is_connected (client (snd r)) = false.
Proof.
  intros r.
  assert (Hws : ws (client Samples.connected) <> None) by (simpl; discriminate).
  destruct (receive_error_ends_session Samples.now Samples.json_dumps
              Samples.b64decode "" AppSamples.bad_audio_event
              [Samples.transcript_message "lost"] Samples.connected
              (snd (run_receive AppSamples.bad_audio_event Samples.connected))
              BinasciiError Hws eq_refl
              ltac:(discriminate) ltac:(discriminate))
    as (Hst & Hout & _ & _ & Hc & _).
  split; [exact Hst|]. split; [exact Hout|exact Hc].
Defined.

Lemma connect_when_not_connected_witness :
  is_connected (client Samples.fresh) = false /\
  is_connected (client (snd (connect "m" None Samples.fresh))) = true /\
  connect "m" (Some OSError) Samples.fresh = (Raise OSError, Samples.fresh).
Proof.
  assert (Hc : is_connected (client Samples.fresh) = false) by reflexivity.
  destruct (connect_when_not_connected Samples.fresh "m" OSError Hc)
    as ((_ & _ & Hcon & _) & Hfail).
  split; [exact Hc|]. split; [exact Hcon|exact Hfail].
Defined.

Lemma _message_handler_transcript_witness :
  let script := [Samples.transcript_message "hel"; RecvTimeout;
                 Samples.audio_message "AAEAAQ==";
                 Samples.transcript_message "lo"] in
  fst (run_handler script Samples.connected) = Running /\
  transcript (client (snd (run_handler script Samples.connected))) = "hello".
Proof.
  intros script.
  assert (Hws : ws (client Samples.connected) <> None) by (simpl; discriminate).
  assert (Hrun : fst (run_handler script Samples.connected) = Running)
    by reflexivity.
  split; [exact Hrun|].
  exact (_message_handler_transcript Samples.now Samples.json_dumps
           Samples.b64decode script Samples.connected Hws Hrun).
Defined.

Lemma initialize_client_success_witness :
  let r := App.initialize_client Samples.json_dumps None App.initial in
  App.client App.initial = None /\
  App.connected (snd r) = true /\
  App.outbox (snd r) = [Samples.json_dumps App.session_update].
Proof.
  intros r.
  destruct (initialize_client_success Samples.json_dumps App.initial eq_refl)
    as (_ & Hcon & _ & _ & Hout & _).
  split; [reflexivity|]. split; [exact Hcon|exact Hout].
Defined.

Lemma initialize_client_failure_not_retried_witness :
  let a1 := snd (App.initialize_client Samples.json_dumps (Some OSError)
                   App.initial) in
  App.connected a1 = false /\
  App.connection_error a1 = Some (App.StrOf OSError) /\
  App.initialize_client Samples.json_dumps None a1 = (Ok tt, a1).
Proof.
  intros a1.
  destruct (initialize_client_failure_not_retried Samples.json_dumps
              App.initial OSError eq_refl)
    as (_ & Hcon & Herr & _ & _ & Hno).
  split; [exact Hcon|]. split; [exact Herr|exact (Hno None)].
Defined.

Lemma start_recording_device_failure_witness :
  let r := App.start_recording (Some OSError) AppSamples.ready in
  App.recording AppSamples.ready = false /\
  fst r = Raise OSError /\
  App.recording (snd r) = true /\
  Recorder.is_recording (App.recorder (snd r)) = false /\
  App.start_recording None (snd r) = (Ok tt, snd r).
Proof.
  intros r.
  destruct (start_recording_device_failure AppSamples.ready OSError
              eq_refl eq_refl)
    as (Hres & Hflag & Hrec & _ & Hno).
  split; [reflexivity|]. split; [exact Hres|]. split; [exact Hflag|].
  split; [exact Hrec|exact (Hno None)].
Defined.

Lemma stop_recording_sends_commit_then_response_witness :
  let a := AppSamples.recording_two_blocks in
  let r := App.stop_recording Samples.now Samples.json_dumps a in
  App.recording a = true /\
  App.is_connected a = true /\
  fst r = Ok tt /\
  App.recording (snd r) = false /\
  App.outbox (snd r)
    = App.outbox a
      ++ [Samples.json_dumps (PyDict [("type", PyStr "input_audio_buffer.commit")]);
          Samples.json_dumps
            (PyDict [("type", PyStr "response.create");
                     ("system_message", PyStr App.SYSTEM_MESSAGE)])].
Proof.
  intros a r.
  destruct (stop_recording_sends_commit_then_response Samples.now
              Samples.json_dumps a eq_refl eq_refl)
    as (Hok & Hflag & _ & _ & Hout).
  split; [reflexivity|]. split; [reflexivity|].
  split; [exact Hok|]. split; [exact Hflag|exact Hout].
Defined.

Lemma stop_recording_disconnected_witness :
  let a := AppSamples.offline_recording in
  let r := App.stop_recording Samples.now Samples.json_dumps a in
  App.recording a = true /\
  App.is_connected a = false /\
  fst r = Raise NotConnected /\
  App.recording (snd r) = false.
Proof.
  intros a r.
  destruct (stop_recording_disconnected Samples.now Samples.json_dumps a
              (Client.init (Some Playback.audio_buffer_cb) true)
              eq_refl eq_refl eq_refl)
    as (Hres & Hflag & _).
  split; [reflexivity|]. split; [reflexivity|].
  split; [exact Hres|exact Hflag].
Defined.

Lemma audio_recorder_drains_fifo_witness :
  let a := AppSamples.recording_two_blocks in
  Recorder.audio_queue (App.recorder a) = [[1; 1; 1]; [-2; -2]] /\
  exists a',
    App.audio_recorder Samples.now Samples.json_dumps AppSamples.b64encode 2 a
      = Some (Ok tt, a') /\
    App.outbox a'
      = App.outbox a
        ++ map (fun chunk =>
                  Samples.json_dumps
                    (PyDict [("type", PyStr "input_audio_buffer.append");
                             ("audio",
                              PyStr (AppSamples.b64encode (tobytes chunk)))]))
               [[1; 1; 1]; [-2; -2]] /\
    Recorder.audio_queue (App.recorder a') = [].
Proof.
  intros a.
  assert (Hq : Recorder.audio_queue (App.recorder a) = [[1; 1; 1]; [-2; -2]])
    by reflexivity.
  split; [exact Hq|].
  assert (Hlen : (length (Recorder.audio_queue (App.recorder a)) <= 2)%nat)
    by (rewrite Hq; simpl; lia).
  destruct (audio_recorder_drains_fifo Samples.now Samples.json_dumps
              AppSamples.b64encode 2 a eq_refl eq_refl Hlen)
    as (a' & Hrun & Hout & Hempty & _).
  exists a'. rewrite Hq in Hout. auto.
Defined.

Lemma chunks_queued_at_stop_stay_queued_witness :
  let a := AppSamples.recording_two_blocks in
  let a' := snd (App.stop_recording Samples.now Samples.json_dumps a) in
  Recorder.audio_queue (App.recorder a') = [[1; 1; 1]; [-2; -2]] /\
  App.audio_recorder Samples.now Samples.json_dumps AppSamples.b64encode 5 a'
    = Some (Ok tt, a').
Proof.
  intros a a'.
  destruct (chunks_queued_at_stop_stay_queued Samples.now Samples.json_dumps
              AppSamples.b64encode 5 a) as [Hq Hrun].
  split; [exact Hq|exact Hrun].
Defined.

End MoreRuns.
